(** * PackageManager: the install / uninstall reconciliation of [main.py]

    A shallow embedding of [PackageManager.install] and
    [PackageManager.uninstall] (src/PackageManager/main.py) together with
    the closures [getInstalledPackages], [installPackage] and
    [getMissingDependencies], and the properties of the dependency
    reconciliation that follow from the code.

    Every child process ([sp.run]), the file system ([os.path.exists], the
    manifest file) and the standard output are made explicit: a command is
    a state transformer over a [World], and everything it does is appended
    to the world's event log. *)

From Stdlib Require Import String Ascii List Bool Arith ZArith Lia.
From Stdlib Require Import DecimalString.
Import ListNotations.
Open Scope string_scope.

(** ** Python string primitives *)

Module PyStr.

(** The line feed, ["\n"] in the source. *)
Definition LF : string := String (ascii_of_nat 10) EmptyString.

(** [s.startswith(p)] *)
Fixpoint startswith (p s : string) : bool :=
  match p, s with
  | EmptyString, _ => true
  | String a p', String b s' => if Ascii.eqb a b then startswith p' s' else false
  | String _ _, EmptyString => false
  end.

(** [sub in s] for strings: [sub] occurs somewhere in [s]. *)
Fixpoint contains (sub s : string) : bool :=
  startswith sub s ||
  match s with
  | EmptyString => false
  | String _ s' => contains sub s'
  end.

(** [x in l] for a list of strings. *)
Definition mem (x : string) (l : list string) : bool :=
  existsb (String.eqb x) l.

(** [s.split(sep)] for a non-empty separator: cut at every occurrence of
    [sep], scanning left to right without overlap.  [skip] counts the
    characters of a separator that is being stepped over and [cur] is the
    piece read so far. *)
Fixpoint split_go (sep : string) (skip : nat) (cur s : string) : list string :=
  match skip with
  | S k =>
      match s with
      | EmptyString => [cur]
      | String _ s' => split_go sep k cur s'
      end
  | O =>
      match s with
      | EmptyString => [cur]
      | String c s' =>
          if startswith sep s
          then cur :: split_go sep (String.length sep - 1) EmptyString s'
          else split_go sep 0 (cur ++ String c EmptyString) s'
      end
  end.

Definition split (sep s : string) : list string :=
  split_go sep 0 EmptyString s.

(** [s.rsplit(sep, 1)] for a one-character separator: cut at the last
    occurrence.  [None] stands for the one-element list Python returns
    when the separator does not occur. *)
Fixpoint rsplit1 (sep : ascii) (s : string) : option (string * string) :=
  match s with
  | EmptyString => None
  | String c s' =>
      match rsplit1 sep s' with
      | Some (a, b) => Some (String c a, b)
      | None => if Ascii.eqb c sep then Some (EmptyString, s') else None
      end
  end.

(** The lazy group [(.+?),] read from the start of [s]: at least one
    character, none of them a line feed, up to the first comma that
    follows.  Returns the group. *)
Fixpoint until_comma (s : string) : option string :=
  match s with
  | EmptyString => None
  | String c s' =>
      if Ascii.eqb c (ascii_of_nat 10) then None
      else if Ascii.eqb c "," then Some EmptyString
      else option_map (String c) (until_comma s')
  end.

Definition lazy_group (s : string) : option string :=
  match s with
  | EmptyString => None
  | String c s' =>
      if Ascii.eqb c (ascii_of_nat 10) then None
      else option_map (String c) (until_comma s')
  end.

(** [re.findall(r"requires (.+?),", s)]: all non-overlapping matches,
    leftmost first; the search resumes after the comma of a match. *)
Fixpoint findall_go (skip : nat) (s : string) : list string :=
  match s with
  | EmptyString => []
  | String _ s' =>
      match skip with
      | S k => findall_go k s'
      | O =>
          if startswith "requires " s then
            match lazy_group (substring 9 (String.length s - 9) s) with
            | Some g => g :: findall_go (9 + String.length g) s'
            | None => findall_go 0 s'
            end
          else findall_go 0 s'
      end
  end.

Definition findall_requires (s : string) : list string := findall_go 0 s.

(** [str(n)] for a natural number, as an f-string prints it. *)
Definition of_nat (n : nat) : string :=
  NilEmpty.string_of_uint (Nat.to_uint n).

(** [l.remove(x)]: delete the first element equal to [x]. *)
Fixpoint remove_first (x : string) (l : list string) : list string :=
  match l with
  | [] => []
  | y :: l' => if String.eqb y x then l' else y :: remove_first x l'
  end.

End PyStr.

(** ** The world a command runs in *)

(** What [sp.run(cmd, capture_output=True)] gives back: a finished process
    with its exit code and its output, taken as text ([.decode()] is left
    out), or an [OSError] when the executable cannot be started at all. *)
Inductive proc_result : Type :=
| Completed (returncode : Z) (stdout stderr : string)
| NotStarted (msg : string).

(** Everything observable a command does, in the order it happens. *)
Inductive event : Type :=
| EvPrint (line : string)                          (* print(...) *)
| EvRun (cmd : list string) (res : proc_result)    (* sp.run(cmd) *)
| EvCreateVenv (path : string)                     (* virtualenv.cli_run *)
| EvLoad                                           (* PyProject(configPath) *)
| EvGetDeps                                        (* config["project"]["dependencies"] *)
| EvAppend (entry : string)                        (* ....append(entry) *)
| EvRemove (entry : string)                        (* deps.remove(entry) *)
| EvSave (deps : list string).                     (* config.save() *)

(** [env_exists] is [os.path.exists(self.envPath)]; [manifest_file] is
    the dependency list stored in the file at [self.configPath] ([None]:
    no readable manifest there); [log] holds the events so far, the most
    recent first. *)
Record World : Type := mkWorld {
  env_exists : bool;
  manifest_file : option (list string);
  log : list event
}.

(** The platform constants of the module and the processes it starts.
    [sp_run] answers a command from the events so far, so an installer
    may answer the same command differently as its environment changes.
    [decode] is [bytes.decode()]: the text of captured output, or the text
    of the [UnicodeDecodeError] that output raises.  It is used where the
    source catches that error; where nothing catches it, captured output
    is taken as text. *)
Record Host : Type := mkHost {
  BIN_FOLDER : string;
  GLOBAL_PYTHON_EXECUTABLE : string;
  abspath : string -> string;
  sp_run : list event -> list string -> proc_result;
  decode : string -> string + string
}.

Inductive exn : Type :=
| Exception (msg : string)     (* raise Exception(msg) *)
| ValueError                   (* name, version = [one element] *)
| IndexError                   (* l[1] on a one-element list *)
| OSError (msg : string)       (* sp.run could not start the process *)
| ManifestError                (* PyProject(path) failed *)
| RecursionError               (* no room left for a nested call *)
| AttributeError               (* None.decode() *)
| UnicodeDecodeError (msg : string).   (* bytes.decode() on other than text *)

(** A computation ends with a value, with an exception, or it is still
    running when the budget of loop rounds is used up ([OutOfFuel]). *)
Inductive result (A : Type) : Type :=
| Val (a : A)
| Raise (e : exn)
| OutOfFuel.
Arguments Val {A} a.
Arguments Raise {A} e.
Arguments OutOfFuel {A}.

Definition M (A : Type) : Type := World -> result A * World.

Definition ret {A} (a : A) : M A := fun w => (Val a, w).

Definition bind {A B} (m : M A) (k : A -> M B) : M B :=
  fun w =>
    match m w with
    | (Val a, w') => k a w'
    | (Raise e, w') => (Raise e, w')
    | (OutOfFuel, w') => (OutOfFuel, w')
    end.

Definition raise {A} (e : exn) : M A := fun w => (Raise e, w).
Definition out_of_fuel {A} : M A := fun w => (OutOfFuel, w).

Declare Scope py_scope.
Delimit Scope py_scope with py.
Notation "x <- m ;; k" := (bind m (fun x => k))
  (at level 61, m at next level, right associativity) : py_scope.
Notation "m ;; k" := (bind m (fun _ => k))
  (at level 61, right associativity) : py_scope.
Notation "' pat <- m ;; k" := (bind m (fun x => match x with pat => k end))
  (at level 61, pat pattern, m at next level, right associativity) : py_scope.
Open Scope py_scope.

Definition record_event (e : event) (w : World) : World :=
  mkWorld (env_exists w) (manifest_file w) (e :: log w).

Definition emit (e : event) : M unit := fun w => (Val tt, record_event e w).

Definition print (line : string) : M unit := emit (EvPrint line).

(** [for x in l: body(x)] over a list that the body does not change. *)
Fixpoint for_each {A} (body : A -> M unit) (l : list A) : M unit :=
  match l with
  | [] => ret tt
  | x :: l' => body x ;; for_each body l'
  end.

(** ** The manifest object *)

Module PyProject.

(** Modelled from the spec: the class [PyProject] of [config_file.py],
    which is imported by [main.py] and is not part of the sources at
    hand.  [load(path) -> Manifest] reads the file and fails when it is
    malformed.  The in-memory manifest is represented by its dependency
    list, the one field the reconciliation touches. *)
Definition load : M (list string) :=
  fun w =>
    match manifest_file w with
    | Some deps => (Val deps, record_event EvLoad w)
    | None => (Raise ManifestError, record_event EvLoad w)
    end.

(** Modelled from the spec: [config["project"]["dependencies"]], the
    [getDependencies() -> ordered sequence] of the manifest store.  The
    callers append to and remove from the list they get and then save
    the manifest, so the list is the stored object itself, not a copy:
    [deps] below is the current content of that one list. *)
Definition dependencies (deps : list string) : M (list string) :=
  emit EvGetDeps ;; ret deps.

(** Modelled from the spec: [save()] persists the manifest to the path
    it was loaded from. *)
Definition save (deps : list string) : M unit :=
  fun w => (Val tt, mkWorld (env_exists w) (Some deps) (EvSave deps :: log w)).

End PyProject.

(** ** [class PackageManager] *)

Section PackageManager.

Variable host : Host.

(** [self.envPath], set by [__init__]. *)
Definition envPath : string := ".ppm.env".

(** [f"{self.envPath}/{BIN_FOLDER}/pip"] *)
Definition env_pip : string := envPath ++ "/" ++ BIN_FOLDER host ++ "/pip".

(** [GLOBAL_PIP_EXECUTABLE = f"{GLOBAL_PYTHON_EXECUTABLE} -m pip"] *)
Definition GLOBAL_PIP_EXECUTABLE : string :=
  GLOBAL_PYTHON_EXECUTABLE host ++ " -m pip".

(** [sp.run(cmd, capture_output=True)] inside a [try]: the answer of the
    host, recorded. *)
Definition run_try (cmd : list string) : M proc_result :=
  fun w =>
    let res := sp_run host (log w) cmd in
    (Val res, record_event (EvRun cmd res) w).

(** [sp.run(cmd, capture_output=True)] where nothing catches: a process
    that cannot be started raises. *)
Definition run (cmd : list string) : M (Z * string * string) :=
  res <- run_try cmd ;;
  match res with
  | Completed rc out err => ret (rc, out, err)
  | NotStarted msg => raise (OSError msg)
  end.

(** [os.path.exists(self.envPath)] *)
Definition env_path_exists : M bool := fun w => (Val (env_exists w), w).

(** [createVenv]: [virtualenv.cli_run([self.envPath])] *)
Definition createVenv : M unit :=
  fun w => (Val tt, mkWorld true (manifest_file w) (EvCreateVenv envPath :: log w)).

(** *** [install] and its closures *)

Definition getInstalledPackages (_global : bool) : M (list string) :=
  '(rc, out, _) <- run [if _global then GLOBAL_PIP_EXECUTABLE else env_pip; "freeze"] ;;
  if negb (rc =? 0)%Z
  then raise (Exception "Failed to get installed packages (exit code: {res.returncode})")
  else ret (PyStr.split PyStr.LF out).

(** The inner loop of [installPackage],
    [for package in packages: ...], on the dependency list [deps] of
    [config]; it gives back the list as the appends leave it. *)
Fixpoint record_packages (deps : list string) (packages : list string)
  : M (list string) :=
  match packages with
  | [] => ret deps
  | package :: rest =>
      match PyStr.rsplit1 "-" package with
      | None => raise ValueError
      | Some (name, version) =>
          let versionString := name ++ "==" ++ version in
          current <- PyProject.dependencies deps ;;
          deps' <- (if negb (PyStr.mem versionString current)
                    then (PyProject.dependencies deps ;;
                          emit (EvAppend versionString) ;;
                          ret (deps ++ [versionString])%list)
                    else ret deps) ;;
          print ("Installed " ++ name ++ "==" ++ version) ;;
          record_packages deps' rest
      end
  end.

(** The outer loop of [installPackage], [for line in stdout.split("\n")]. *)
Fixpoint record_lines (deps : list string) (lines : list string)
  : M (list string) :=
  match lines with
  | [] => ret deps
  | line :: rest =>
      deps' <- (if PyStr.startswith "Successfully installed" line
                then record_packages deps (skipn 2 (PyStr.split " " line))
                else ret deps) ;;
      record_lines deps' rest
  end.

(** [if version:] on an optional string. *)
Definition truthy (version : option string) : bool :=
  match version with
  | Some (String _ _) => true
  | _ => false
  end.

(** [installPackage(package, version, installDeps)].  The value is what
    the Python function returns ([None] when it falls off its end, as on
    success in global mode) and the dependency list of [config]. *)
Definition installPackage (_global : bool) (deps : list string)
    (package : string) (version : option string) (installDeps : bool)
  : M (option Z * list string) :=
  let package := if truthy version
                 then package ++ "==" ++ match version with Some v => v | None => "" end
                 else package in
  if _global then
    '(rc, _, err) <- run ([GLOBAL_PIP_EXECUTABLE; "install"; package]
                           ++ (if installDeps then ["--no-deps"] else []))%list ;;
    print err ;;
    if negb (rc =? 0)%Z
    then (print err ;; ret (Some rc, deps))
    else ret (None, deps)
  else
    '(rc, out, err) <- run ([env_pip; "install"; package]
                             ++ (if installDeps then ["--no-deps"] else []))%list ;;
    if negb (rc =? 0)%Z
    then (print err ;; ret (Some rc, deps))
    else
      deps' <- record_lines deps (PyStr.split PyStr.LF out) ;;
      PyProject.save deps' ;;
      ret (Some 0%Z, deps').

Definition getMissingDependencies : M (list string) :=
  '(rc, out, _) <- run [env_pip; "check"] ;;
  if negb (rc =? 0)%Z
  then raise (Exception "Failed to check for missing dependencies")
  else ret (PyStr.findall_requires out).

(** [for dep in deps: ...] of the branch [if not names].  [deps] is the
    dependency list of [config], the very list [installPackage] appends
    to, so the loop is Python's list iteration by position: round [i]
    looks at [deps[i]] of the list as it is by then, and the loop ends
    when [i] reaches its length.  Each round costs one unit of fuel. *)
Fixpoint install_deps (fuel : nat) (_global : bool) (installedPackages : list string)
    (i : nat) (deps : list string) : M (list string) :=
  match nth_error deps i with
  | None => ret deps
  | Some dep =>
      match fuel with
      | O => out_of_fuel
      | S fuel' =>
          deps' <- (if negb (PyStr.mem dep installedPackages)
                    then ('(_, deps') <- installPackage _global deps dep None false ;;
                          ret deps')
                    else (print ("Dependency " ++ dep ++ " is already installed") ;;
                          ret deps)) ;;
          install_deps fuel' _global installedPackages (S i) deps'
      end
  end.

(** [for package in names: ...] of the branch [else]. *)
Fixpoint install_names (_global : bool) (installedPackages : list string)
    (deps : list string) (names : list string) : M (list string) :=
  match names with
  | [] => ret deps
  | package :: rest =>
      deps' <- (if negb (PyStr.mem package installedPackages)
                then ('(_, deps') <- installPackage _global deps package None false ;;
                      ret deps')
                else (print ("Package " ++ package ++ " is already installed") ;;
                      ret deps)) ;;
      install_names _global installedPackages deps' rest
  end.

(** The body of [install] up to the end of the two work-list loops:
    one reconciliation pass. *)
Definition install_pass (fuel : nat) (names : list string) (_global : bool) : M unit :=
  config <- PyProject.load ;;
  present <- env_path_exists ;;
  (if negb present then createVenv else ret tt) ;;
  installedPackages <- getInstalledPackages _global ;;
  match names with
  | [] =>
      deps <- PyProject.dependencies config ;;
      print ("Installing " ++ PyStr.of_nat (List.length deps) ++ " dependencies") ;;
      install_deps fuel _global installedPackages 0 deps ;;
      ret tt
  | _ :: _ =>
      install_names _global installedPackages config names ;;
      ret tt
  end.

(** [install(names, _global)].  [fuel] is the number of calls of
    [self.install], this one included, that the interpreter's limit on
    nested calls leaves room for: the call for which no room is left ends
    with [RecursionError], as in Python (the frames a call needs below
    itself are not counted).  What is left of it also bounds the rounds of
    the loop over the dependency list. *)
Fixpoint install (fuel : nat) (names : list string) (_global : bool) : M Z :=
  match fuel with
  | O => raise RecursionError
  | S fuel' =>
      install_pass fuel' names _global ;;
      missingDeps <- getMissingDependencies ;;
      for_each (fun dep => install fuel' [dep] _global ;; ret tt) missingDeps ;;
      ret 0%Z
  end.

(** *** [uninstall] *)

(** [dep.split("==")[0]] *)
Definition bare_name (dep : string) : string :=
  hd "" (PyStr.split "==" dep).

(** [for dep in deps: if dep.split("==")[0] == name: ... break]: the
    first entry whose bare name is [name]. *)
Fixpoint find_dep (name : string) (deps : list string) : option string :=
  match deps with
  | [] => None
  | dep :: rest =>
      if String.eqb (bare_name dep) name then Some dep else find_dep name rest
  end.

(** The [except Exception as e] branch of one round of the loop over
    [names], with [msg] the text of [e], and the [print] after it. *)
Definition uninstall_caught (name version msg : string) : M (option Z) :=
  print msg ;;
  print (abspath host env_pip) ;;
  print ("Uninstalled " ++ name ++ "==" ++ version) ;;
  ret None.

(** The [try] block and the final [print] of one round of the loop over
    [names].  [Some rc] is [return rc] out of [uninstall].  Both [sp.run]
    and [res.stderr.decode()] are inside the [try]: a process that cannot
    be started and an error text that does not decode end in the [except]
    branch, and the second skips the [return]. *)
Definition uninstall_package (name version : string) : M (option Z) :=
  res <- run_try [env_pip; "uninstall"; "-y"; name ++ "==" ++ version] ;;
  match res with
  | Completed rc _ err =>
      if negb (rc =? 0)%Z
      then match decode host err with
           | inl text => print text ;; ret (Some rc)
           | inr msg => uninstall_caught name version msg
           end
      else (print ("Uninstalled " ++ name ++ "==" ++ version) ;; ret None)
  | NotStarted msg => uninstall_caught name version msg
  end.

(** One round of [for name in names: ...] on the dependency list [deps]:
    the value is [Some rc] for [return rc], [None] when the loop goes on
    (also after [continue]), and the list as the round leaves it. *)
Definition uninstall_name (deps : list string) (name : string)
  : M (option Z * list string) :=
  if PyStr.contains "==" name then
    if PyStr.mem name deps then
      emit (EvRemove name) ;;
      match nth_error (PyStr.split "==" name) 1 with
      | None => raise IndexError
      | Some version =>
          r <- uninstall_package name version ;;
          ret (r, PyStr.remove_first name deps)
      end
    else
      print ("Package " ++ name ++ " not found in dependencies") ;;
      ret (None, deps)
  else
    match find_dep name deps with
    | Some dep =>
        match nth_error (PyStr.split "==" dep) 1 with
        | None => raise IndexError
        | Some version =>
            emit (EvRemove dep) ;;
            r <- uninstall_package name version ;;
            ret (r, PyStr.remove_first dep deps)
        end
    | None =>
        print ("Package " ++ name ++ " not found in dependencies") ;;
        ret (None, deps)
    end.

Fixpoint uninstall_names (deps : list string) (names : list string)
  : M (option Z * list string) :=
  match names with
  | [] => ret (None, deps)
  | name :: rest =>
      '(r, deps') <- uninstall_name deps name ;;
      match r with
      | Some rc => ret (Some rc, deps')
      | None => uninstall_names deps' rest
      end
  end.

(** [uninstall(names, _global)] *)
Definition uninstall (names : list string) (_global : bool) : M Z :=
  present <- env_path_exists ;;
  if negb present then
    print "No environment found" ;;
    ret 1%Z
  else
    config <- PyProject.load ;;
    if _global then
      '(rc, _, _) <- run ([GLOBAL_PIP_EXECUTABLE; "uninstall"; "-y"] ++ names)%list ;;
      ret rc
    else
      deps <- PyProject.dependencies config ;;
      '(r, deps') <- uninstall_names deps names ;;
      match r with
      | Some rc => ret rc
      | None => PyProject.save deps' ;; ret 0%Z
      end.

End PackageManager.

Arguments env_pip : simpl never.
Arguments GLOBAL_PIP_EXECUTABLE : simpl never.
Arguments PyStr.split : simpl never.
Arguments PyStr.findall_requires : simpl never.
Arguments PyStr.of_nat : simpl never.

(** ** The commands [run], [cli] and [list] *)

Module Command.

(** The [CompletedProcess] that [sp.run] hands back.  A stream that was
    not captured is [None]. *)
Record CompletedProcess : Type := mkCompletedProcess {
  returncode : Z;
  stdout : option string;
  stderr : option string }.

Section Commands.

Variable host : Host.

(** [os.path.exists(script)] for the script handed to [run]: the files of
    the user, which no command of the package manager creates or
    deletes. *)
Variable script_exists : string -> bool.

(** [f"{self.envPath}/{BIN_FOLDER}/python"] *)
Definition env_python : string := envPath ++ "/" ++ BIN_FOLDER host ++ "/python".

(** [sp.run(cmd)] without [capture_output]: the process writes to the
    terminal itself, so neither stream is in the result. *)
Definition run_inherit (cmd : list string) : M CompletedProcess :=
  '(rc, _, _) <- run host cmd ;;
  ret (mkCompletedProcess rc None None).

(** [sp.run(cmd).returncode] *)
Definition run_uncaptured (cmd : list string) : M Z :=
  res <- run_inherit cmd ;;
  ret (returncode res).

(** [stream.decode()] on a stream of a [CompletedProcess]: [None] has no
    [decode]. *)
Definition stream_decode (stream : option string) : M string :=
  match stream with
  | None => raise AttributeError
  | Some bytes =>
      match decode host bytes with
      | inl text => ret text
      | inr msg => raise (UnicodeDecodeError msg)
      end
  end.

(** [cli(_global)].  [sp.run] is given one string and no [shell=True]:
    the string is the program to start, without arguments. *)
Definition cli (_global : bool) : M Z :=
  if _global
  then run_uncaptured [GLOBAL_PYTHON_EXECUTABLE host]
  else run_uncaptured [env_python].

(** [run(script, args)] *)
Definition run (script : string) (args : list string) : M Z :=
  if negb (script_exists script) then
    print ("Script " ++ script ++ " not found") ;;
    ret 1%Z
  else
    present <- env_path_exists ;;
    (if negb present then createVenv else ret tt) ;;
    run_uncaptured ([env_python; script] ++ args)%list.

(** [list(_global, deprecated)].  The command is one string handed to the
    shell ([shell=True]): here a command of one word.  The two branches of
    the source differ in that string only. *)
Definition list (_global deprecated : bool) : M Z :=
  let cmd := "list" ++ (if deprecated then " --outdated" else "") in
  res <- run_inherit [(if _global then GLOBAL_PIP_EXECUTABLE host else env_pip host)
                      ++ " " ++ cmd] ;;
  if negb (returncode res =? 0)%Z then
    text <- stream_decode (stderr res) ;;
    print text ;;
    ret (returncode res)
  else
    ret 0%Z.

End Commands.

End Command.

Arguments Command.env_python : simpl never.

(** ** Specification vocabulary *)

(** [wp m Q E w]: run from [w], the computation [m] ends with a value [a]
    in a world satisfying [Q a], or it ends otherwise in a world satisfying
    [E o], where [o] is [Some e] for the exception [e] and [None] when the
    fuel is used up. *)
Definition wp {A} (m : M A) (Q : A -> World -> Prop) (E : option exn -> World -> Prop)
    (w : World) : Prop :=
  match m w with
  | (Val a, w') => Q a w'
  | (Raise e, w') => E (Some e) w'
  | (OutOfFuel, w') => E None w'
  end.

(** The events that change the dependency list of the manifest, in memory
    or on disk, and the one that reads it. *)
Definition writes_deps (e : event) : bool :=
  match e with
  | EvAppend _ | EvRemove _ | EvSave _ => true
  | _ => false
  end.

Definition reads_deps (e : event) : bool :=
  match e with
  | EvGetDeps => true
  | _ => false
  end.

Definition is_save (e : event) : bool :=
  match e with
  | EvSave _ => true
  | _ => false
  end.

(** A run of the installer's [install] subcommand, and one that exited
    with code 0. *)
Definition is_install (e : event) : bool :=
  match e with
  | EvRun (_ :: "install" :: _) _ => true
  | _ => false
  end.

Definition is_install_ok (e : event) : bool :=
  match e with
  | EvRun (_ :: "install" :: _) (Completed 0 _ _) => true
  | _ => false
  end.

Definition is_run (e : event) : bool :=
  match e with
  | EvRun _ _ => true
  | _ => false
  end.

Definition count (p : event -> bool) (l : list event) : nat :=
  List.length (filter p l).

(** The commands run so far, oldest first. *)
Definition commands (w : World) : list (list string) :=
  flat_map (fun e => match e with EvRun cmd _ => [cmd] | _ => [] end) (rev (log w)).

(** [since w w' new]: [new] is what was logged on the way from [w] to
    [w'], the most recent event first. *)
Definition since (w w' : World) (new : list event) : Prop :=
  log w' = (new ++ log w)%list.

(** The manifest on disk holds no entry twice. *)
Definition distinct_manifest (w : World) : Prop :=
  forall deps, manifest_file w = Some deps -> NoDup deps.


(** ** Sample hosts and worlds *)

Definition sample_abspath (p : string) : string := "/home/user/project/" ++ p.

(** A decoder for the samples.  Their answers are ASCII, and ASCII
    decodes to itself; any other byte string is refused, with a stand-in
    for the text of the error. *)
Fixpoint is_ascii (b : string) : bool :=
  match b with
  | EmptyString => true
  | String c b' => Nat.ltb (nat_of_ascii c) 128 && is_ascii b'
  end.

Definition sample_decode (b : string) : string + string :=
  if is_ascii b then inl b else inr "'utf-8' codec can't decode bytes".

(** A project with an environment and an empty dependency list. *)
Definition fresh_project : World := mkWorld true (Some []) [].

(** An installer whose [check] finds a broken requirement: it prints the
    report and exits with code 1. *)
Definition problems_answers (cmd : list string) : proc_result :=
  match cmd with
  | [_; "check"] => Completed 1 "a 1.0 requires b, which is not installed." ""
  | _ => Completed 0 "" ""
  end.

Definition problems_host : Host :=
  mkHost "bin" "/usr/bin/python3" sample_abspath (fun _ => problems_answers) sample_decode.

(** An installer with nothing installed and nothing to complain about. *)
Definition quiet_answers (cmd : list string) : proc_result :=
  match cmd with
  | [_; "check"] => Completed 0 "No broken requirements found." ""
  | _ => Completed 0 "" ""
  end.

Definition quiet_host : Host :=
  mkHost "bin" "/usr/bin/python3" sample_abspath (fun _ => quiet_answers) sample_decode.

(** [untouched may_read w w']: on the way from [w] to [w'] the manifest
    file kept its content and the dependency list was not written; unless
    [may_read] is set, it was not read either. *)
Definition untouched (may_read : bool) (w w' : World) : Prop :=
  manifest_file w' = manifest_file w /\
  exists new,
    since w w' new /\
    count writes_deps new = 0 /\
    (may_read = false -> count reads_deps new = 0).

(** [settled _global w w']: on the way from [w] to [w'] the manifest was
    saved once for every [install] subcommand that exited with code 0, and
    not at all in global mode.  [pending]: one such subcommand has not been
    followed by its save yet.  [bounded]: there were at most as many saves
    as successful [install] subcommands, and none in global mode. *)
Definition settled (_global : bool) (w w' : World) : Prop :=
  exists new,
    since w w' new /\
    count is_save new = if _global then 0 else count is_install_ok new.

Definition pending (w w' : World) : Prop :=
  exists new,
    since w w' new /\ S (count is_save new) = count is_install_ok new.

Definition bounded (_global : bool) (w w' : World) : Prop :=
  exists new,
    since w w' new /\
    count is_save new <= count is_install_ok new /\
    (_global = true -> count is_save new = 0).

(** An installer that installs whatever it is asked for, version 1.0, and
    never finds a broken requirement. *)
Definition obliging_answers (cmd : list string) : proc_result :=
  match cmd with
  | [_; "freeze"] => Completed 0 "" ""
  | [_; "install"; package] =>
      Completed 0 ("Successfully installed " ++ package ++ "-1.0" ++ PyStr.LF) ""
  | [_; "check"] => Completed 0 "No broken requirements found." ""
  | [_; "uninstall"; "-y"; _] => Completed 0 "" ""
  | _ => NotStarted "unknown command"
  end.

Definition obliging_host : Host :=
  mkHost "bin" "/usr/bin/python3" sample_abspath (fun _ => obliging_answers) sample_decode.

(** The output of a successful [install] subcommand that
    [installPackage] can take apart: on each line that starts with
    [Successfully installed], every word after the first two has a hyphen. *)
Definition parsable_output (out : string) : bool :=
  forallb
    (fun line =>
       negb (PyStr.startswith "Successfully installed" line) ||
       forallb (fun package =>
                  match PyStr.rsplit1 "-" package with
                  | Some _ => true
                  | None => false
                  end)
               (skipn 2 (PyStr.split " " line)))
    (PyStr.split PyStr.LF out).

(** An installer that works, and whose [check] reports a missing
    requirement every time it is asked: as with two packages that require
    each other and a report that never clears. *)
Definition never_satisfied (host : Host) (_global : bool) : Prop :=
  (forall h, exists out err,
      sp_run host h
        [if _global then GLOBAL_PIP_EXECUTABLE host else env_pip host; "freeze"]
      = Completed 0 out err) /\
  (forall h package, exists rc out err,
      sp_run host h
        [if _global then GLOBAL_PIP_EXECUTABLE host else env_pip host; "install"; package]
      = Completed rc out err /\
      (rc = 0%Z -> parsable_output out = true)) /\
  (forall h, exists out err,
      sp_run host h [env_pip host; "check"] = Completed 0 out err /\
      PyStr.findall_requires out <> []).

Definition has_manifest (w : World) : Prop := manifest_file w <> None.

(** A run that does not stop short of a value. *)
Definition never_short (o : option exn) (_ : World) : Prop := False.

(** A run that stops short of a value in one way only: there is no room
    left for a nested call. *)
Definition limit_reached (o : option exn) (_ : World) : Prop :=
  o = Some RecursionError.

(** An installer whose [check] exits with a code other than 0 whenever
    it is asked, as [pip check] does when it has something to report. *)
Definition check_refuses (host : Host) : Prop :=
  forall h, exists rc out err,
    sp_run host h [env_pip host; "check"] = Completed rc out err /\ rc <> 0%Z.

(** A dependency cycle the installer never gets out of: [A] requires [B]
    and [B] requires [A]; asked for either, the installer installs both,
    and every [check] still reports both requirements as unmet. *)
Definition cycle_answers (cmd : list string) : proc_result :=
  match cmd with
  | [_; "freeze"] => Completed 0 "" ""
  | [_; "install"; _] => Completed 0 "Successfully installed A-1.0 B-1.0" ""
  | [_; "check"] =>
      Completed 0
        ("A 1.0 requires B, which is not installed." ++ PyStr.LF ++
         "B 1.0 requires A, which is not installed.") ""
  | _ => NotStarted "unknown command"
  end.

Definition cycle_host : Host :=
  mkHost "bin" "/usr/bin/python3" sample_abspath (fun _ => cycle_answers) sample_decode.

(** The same cycle with an installer that, like [pip], exits with code 1
    from a [check] that has something to report. *)
Definition reporting_answers (cmd : list string) : proc_result :=
  match cmd with
  | [_; "check"] =>
      Completed 1
        ("A 1.0 requires B, which is not installed." ++ PyStr.LF ++
         "B 1.0 requires A, which is not installed.") ""
  | _ => cycle_answers cmd
  end.

Definition reporting_host : Host :=
  mkHost "bin" "/usr/bin/python3" sample_abspath (fun _ => reporting_answers)
    sample_decode.

(** An environment in which [requests] 2.26.0 is installed. *)
Definition requests_answers (cmd : list string) : proc_result :=
  match cmd with
  | [_; "freeze"] => Completed 0 ("requests==2.26.0" ++ PyStr.LF) ""
  | [_; "install"; _] => Completed 0 "Requirement already satisfied: requests" ""
  | [_; "check"] => Completed 0 "No broken requirements found." ""
  | [_; "uninstall"; "-y"; _] => Completed 0 "" ""
  | _ => NotStarted "unknown command"
  end.

Definition requests_host : Host :=
  mkHost "bin" "/usr/bin/python3" sample_abspath (fun _ => requests_answers) sample_decode.

Definition requests_project : World :=
  mkWorld true (Some ["requests==2.26.0"]) [].

(** An installer that cannot find the package [a] and installs anything
    else. *)
Definition picky_answers (cmd : list string) : proc_result :=
  match cmd with
  | [_; "install"; "a"] =>
      Completed 1 "" "ERROR: No matching distribution found for a"
  | _ => obliging_answers cmd
  end.

Definition picky_host : Host :=
  mkHost "bin" "/usr/bin/python3" sample_abspath (fun _ => picky_answers) sample_decode.

(** [ran w w' l]: [l] lists the processes started on the way from [w] to
    [w'], the most recent first. *)
Definition ran (w w' : World) (l : list event) : Prop :=
  exists new, since w w' new /\ filter is_run new = l.

(** ** Vocabulary for the further properties *)

(** The processes [install] may start in a given mode, and the events it
    may log: it never removes an entry from the dependency list. *)
Definition install_command (host : Host) (_global : bool) (cmd : list string) : Prop :=
  cmd = [if _global then GLOBAL_PIP_EXECUTABLE host else env_pip host; "freeze"] \/
  cmd = [env_pip host; "check"] \/
  exists package,
    cmd = [if _global then GLOBAL_PIP_EXECUTABLE host else env_pip host;
           "install"; package].

Definition install_event (host : Host) (_global : bool) (e : event) : Prop :=
  match e with
  | EvRun cmd _ => install_command host _global cmd
  | EvRemove _ => False
  | _ => True
  end.

(** The processes [uninstall] may start and the events it may log: it
    never appends to the dependency list and never creates the
    environment. *)
Definition uninstall_command (host : Host) (_global : bool) (names cmd : list string)
  : Prop :=
  if _global
  then cmd = ([GLOBAL_PIP_EXECUTABLE host; "uninstall"; "-y"] ++ names)%list
  else exists spec, cmd = [env_pip host; "uninstall"; "-y"; spec].

Definition uninstall_event (host : Host) (_global : bool) (names : list string)
    (e : event) : Prop :=
  match e with
  | EvRun cmd _ => uninstall_command host _global names cmd
  | EvAppend _ | EvCreateVenv _ => False
  | _ => True
  end.

(** [if entry not in deps: deps.append(entry)] as a function. *)
Definition add_entry (deps : list string) (entry : string) : list string :=
  if PyStr.mem entry deps then deps else (deps ++ [entry])%list.

(** The dependency entry [installPackage] makes of a reported word
    [name-version]. *)
Definition entry_of (package : string) : string :=
  match PyStr.rsplit1 "-" package with
  | Some (name, version) => name ++ "==" ++ version
  | None => package
  end.

(** A name matches no entry of the dependency list, the way [uninstall]
    looks for it: as a whole entry when it carries [==], by bare name
    otherwise. *)
Definition not_in_dependencies (deps : list string) (name : string) : Prop :=
  if PyStr.contains "==" name
  then PyStr.mem name deps = false
  else find_dep name deps = None.

(** An installer whose [freeze] fails. *)
Definition broken_answers (cmd : list string) : proc_result :=
  match cmd with
  | [_; "freeze"] => Completed 2 "" "ERROR: freeze failed"
  | [_; "uninstall"; "-y"; _] => Completed 1 "" "ERROR: cannot uninstall"
  | _ => obliging_answers cmd
  end.

Definition broken_host : Host :=
  mkHost "bin" "/usr/bin/python3" sample_abspath (fun _ => broken_answers) sample_decode.

(** A machine on which no process can be started. *)
Definition dead_host : Host :=
  mkHost "bin" "/usr/bin/python3" sample_abspath
    (fun _ _ => NotStarted "[Errno 2] No such file or directory") sample_decode.

(** [logs_only allowed w w']: every event logged on the way from [w] to
    [w'] is an [allowed] one. *)
Definition logs_only (allowed : event -> Prop) (w w' : World) : Prop :=
  exists new, since w w' new /\ Forall allowed new.

(** The manifest on disk starts with the entries [deps], in that order. *)
Definition keeps_prefix (deps : list string) (w : World) : Prop :=
  exists added, manifest_file w = Some (deps ++ added)%list.

(** Every entry carries a [==]: it is of the form [uninstall] can take
    apart. *)
Definition versioned (deps : list string) : Prop :=
  Forall (fun dep => PyStr.contains "==" dep = true) deps.

Definition versioned_manifest (w : World) : Prop :=
  forall deps, manifest_file w = Some deps -> versioned deps.

(** The dependency list after the words of one line of installer output,
    and after a whole output, have been recorded into [deps]. *)
Definition recorded_words (deps : list string) (packages : list string) : list string :=
  fold_left add_entry (map entry_of packages) deps.

Definition recorded (deps : list string) (out : string) : list string :=
  fold_left
    (fun deps line =>
       if PyStr.startswith "Successfully installed" line
       then recorded_words deps (skipn 2 (PyStr.split " " line))
       else deps)
    (PyStr.split PyStr.LF out) deps.

(** An installer that answers [install] with a report in which two
    spaces follow each other, so that one of the reported words is
    empty. *)
Definition sloppy_answers (cmd : list string) : proc_result :=
  match cmd with
  | [_; "install"; _] => Completed 0 "Successfully installed  six-1.16.0" ""
  | _ => obliging_answers cmd
  end.

Definition sloppy_host : Host :=
  mkHost "bin" "/usr/bin/python3" sample_abspath (fun _ => sloppy_answers) sample_decode.

(** [matches deps name dep version]: in the dependency list [deps] the
    loop of [uninstall] finds the entry [dep] for [name] and reads the
    version [version] off it. *)
Definition matches (deps : list string) (name dep version : string) : Prop :=
  if PyStr.contains "==" name
  then PyStr.mem name deps = true /\ dep = name /\
       nth_error (PyStr.split "==" name) 1 = Some version
  else find_dep name deps = Some dep /\
       nth_error (PyStr.split "==" dep) 1 = Some version.

(** The manifest on disk holds only entries of [deps]. *)
Definition within (deps : list string) (w : World) : Prop :=
  forall deps', manifest_file w = Some deps' -> incl deps' deps.

(** [idle w w']: on the way from [w] to [w'] no [install] subcommand was
    run and the manifest was not saved. *)
Definition idle (w w' : World) : Prop :=
  exists new, since w w' new /\ count is_install new = 0 /\ count is_save new = 0.

(** A machine on which every command exits with code 1. *)
Definition failing_host : Host :=
  mkHost "bin" "/usr/bin/python3" sample_abspath
    (fun _ _ => Completed 1 "" "ERROR") sample_decode.

(** [quiet w w']: on the way from [w] to [w'] no process was started
    and the manifest was not saved. *)
Definition quiet (w w' : World) : Prop :=
  exists new, since w w' new /\ filter is_run new = [] /\ count is_save new = 0.

(** An installer whose [uninstall] fails with an error text that is not
    text: the one byte 233. *)
Definition garbled_answers (cmd : list string) : proc_result :=
  match cmd with
  | [_; "uninstall"; "-y"; _] => Completed 1 "" (String (ascii_of_nat 233) "")
  | _ => obliging_answers cmd
  end.

Definition garbled_host : Host :=
  mkHost "bin" "/usr/bin/python3" sample_abspath (fun _ => garbled_answers)
    sample_decode.

(** The events that read or write the manifest, in memory or on disk. *)
Definition is_manifest_event (e : event) : bool :=
  match e with
  | EvLoad | EvGetDeps | EvAppend _ | EvRemove _ | EvSave _ => true
  | _ => false
  end.

(** [hands_off w w']: on the way from [w] to [w'] the manifest was neither
    loaded nor read nor changed nor saved. *)
Definition hands_off (w w' : World) : Prop :=
  exists new, since w w' new /\ filter is_manifest_event new = [].
(** ** The string primitives on sample inputs *)

Example split_eqeq : PyStr.split "==" "requests==2.26.0" = ["requests"; "2.26.0"].
Proof. reflexivity. Qed.
Example split_eqeq3 : PyStr.split "==" "a===b" = ["a"; "=b"].
Proof. reflexivity. Qed.
Example split_none : PyStr.split "==" "requests" = ["requests"].
Proof. reflexivity. Qed.
Example split_lines : PyStr.split PyStr.LF ("a==1" ++ PyStr.LF ++ "b==2" ++ PyStr.LF)
                      = ["a==1"; "b==2"; ""].
Proof. reflexivity. Qed.
Example split_empty : PyStr.split PyStr.LF "" = [""].
Proof. reflexivity. Qed.
Example split_words : skipn 2 (PyStr.split " " "Successfully installed a-1.0 b-c-2")
                      = ["a-1.0"; "b-c-2"].
Proof. reflexivity. Qed.
Example rsplit_last : PyStr.rsplit1 "-" "b-c-2" = Some ("b-c", "2").
Proof. reflexivity. Qed.
Example rsplit_none : PyStr.rsplit1 "-" "abc" = None.
Proof. reflexivity. Qed.
Example findall_two :
  PyStr.findall_requires
    ("a 1.0 requires b, which is not installed." ++ PyStr.LF ++
     "c 2 requires d, which is not installed.") = ["b"; "d"].
Proof. reflexivity. Qed.
Example findall_line_break :
  PyStr.findall_requires ("x requires y" ++ PyStr.LF ++ ", requires ,, z") = [","].
Proof. reflexivity. Qed.
Example findall_nothing : PyStr.findall_requires "No broken requirements found." = [].
Proof. reflexivity. Qed.


(** ** Reasoning rules *)

Section Rules.

Context {A B : Type}.

Lemma wp_ret (a : A) Q E w : Q a w -> wp (ret a) Q E w.
Proof. exact (fun H => H). Qed.

Lemma wp_raise (e : exn) (Q : A -> World -> Prop) E w :
  E (Some e) w -> wp (raise e) Q E w.
Proof. exact (fun H => H). Qed.

Lemma wp_out_of_fuel (Q : A -> World -> Prop) E w :
  E None w -> wp out_of_fuel Q E w.
Proof. exact (fun H => H). Qed.

Lemma wp_bind (m : M A) (k : A -> M B) Q E w :
  wp m (fun a => wp (k a) Q E) E w -> wp (bind m k) Q E w.
Proof.
  unfold wp, bind. destruct (m w) as [[a | e |] w']; auto.
Qed.

Lemma wp_mono (m : M A) (Q Q' : A -> World -> Prop) E E' w :
  wp m Q E w ->
  (forall a w', Q a w' -> Q' a w') ->
  (forall o w', E o w' -> E' o w') ->
  wp m Q' E' w.
Proof.
  unfold wp. destruct (m w) as [[a | e |] w']; auto.
Qed.

Lemma wp_outcome (m : M A) Q E w :
  wp m Q E w ->
  match fst (m w) with
  | Val a => Q a (snd (m w))
  | Raise e => E (Some e) (snd (m w))
  | OutOfFuel => E None (snd (m w))
  end.
Proof.
  unfold wp. destruct (m w) as [[a | e |] w']; auto.
Qed.

(** A computation that may do anything. *)
Lemma wp_any (m : M A) (Q : A -> World -> Prop) E w :
  (forall a w', Q a w') -> (forall o w', E o w') -> wp m Q E w.
Proof.
  intros HQ HE. unfold wp. destruct (m w) as [[a | e |] w']; auto.
Qed.

End Rules.

Lemma wp_emit e (Q : unit -> World -> Prop) E w :
  Q tt (record_event e w) -> wp (emit e) Q E w.
Proof. exact (fun H => H). Qed.

Lemma wp_print line (Q : unit -> World -> Prop) E w :
  Q tt (record_event (EvPrint line) w) -> wp (print line) Q E w.
Proof. exact (fun H => H). Qed.

Lemma wp_dependencies deps (Q : list string -> World -> Prop) E w :
  Q deps (record_event EvGetDeps w) -> wp (PyProject.dependencies deps) Q E w.
Proof. exact (fun H => H). Qed.

Lemma wp_save deps (Q : unit -> World -> Prop) E w :
  Q tt (mkWorld (env_exists w) (Some deps) (EvSave deps :: log w)) ->
  wp (PyProject.save deps) Q E w.
Proof. exact (fun H => H). Qed.

Lemma wp_load (Q : list string -> World -> Prop) E w :
  (forall deps, manifest_file w = Some deps -> Q deps (record_event EvLoad w)) ->
  (manifest_file w = None -> E (Some ManifestError) (record_event EvLoad w)) ->
  wp PyProject.load Q E w.
Proof.
  unfold wp, PyProject.load. destruct (manifest_file w); auto.
Qed.

Lemma wp_env_path_exists (Q : bool -> World -> Prop) E w :
  Q (env_exists w) w -> wp env_path_exists Q E w.
Proof. exact (fun H => H). Qed.

Lemma wp_createVenv (Q : unit -> World -> Prop) E w :
  Q tt (mkWorld true (manifest_file w) (EvCreateVenv envPath :: log w)) ->
  wp createVenv Q E w.
Proof. exact (fun H => H). Qed.

Lemma wp_run_try host cmd (Q : proc_result -> World -> Prop) E w :
  Q (sp_run host (log w) cmd) (record_event (EvRun cmd (sp_run host (log w) cmd)) w) ->
  wp (run_try host cmd) Q E w.
Proof. exact (fun H => H). Qed.

Lemma wp_sp_run host cmd (Q : Z * string * string -> World -> Prop) E w :
  (forall res, res = sp_run host (log w) cmd ->
     match res with
     | Completed rc out err => Q (rc, out, err) (record_event (EvRun cmd res) w)
     | NotStarted msg => E (Some (OSError msg)) (record_event (EvRun cmd res) w)
     end) ->
  wp (run host cmd) Q E w.
Proof.
  intros H. unfold run. apply wp_bind, wp_run_try.
  specialize (H _ eq_refl). destruct (sp_run host (log w) cmd); exact H.
Qed.

Lemma wp_for_each {A} (body : A -> M unit) (I : World -> Prop) E l :
  (forall x w, In x l -> I w -> wp (body x) (fun _ => I) E w) ->
  forall w, I w -> wp (for_each body l) (fun _ => I) E w.
Proof.
  induction l as [| x l IH]; intros Hbody w Hw; simpl.
  - apply wp_ret. exact Hw.
  - apply wp_bind. eapply wp_mono.
    + apply Hbody; [left; reflexivity | exact Hw].
    + intros u w' Hw'. apply IH; [| exact Hw'].
      intros y w'' Hy. apply Hbody. right. exact Hy.
    + auto.
Qed.

Lemma mem_In x l : PyStr.mem x l = true <-> In x l.
Proof.
  unfold PyStr.mem. rewrite existsb_exists. split.
  - intros [y [Hy Heq]]. apply String.eqb_eq in Heq. subst. exact Hy.
  - intros H. exists x. split; [exact H | apply String.eqb_refl].
Qed.

Lemma mem_not_In x l : PyStr.mem x l = false <-> ~ In x l.
Proof.
  rewrite <- mem_In. destruct (PyStr.mem x l); split; congruence.
Qed.

(** The loop over the dependency list ends when the position reaches the
    end of the list, whatever fuel is left. *)
Lemma install_deps_end host fuel _global installed i deps :
  nth_error deps i = None ->
  install_deps host fuel _global installed i deps = ret deps.
Proof.
  intros Hend. destruct fuel; simpl; rewrite Hend; reflexivity.
Qed.

(** *** The events logged between two worlds *)

Lemma since_refl w : since w w [].
Proof. reflexivity. Qed.

Lemma since_event w w' new e :
  since w w' new -> since w (record_event e w') (e :: new).
Proof. unfold since. cbn. intros ->. reflexivity. Qed.

Lemma log_cons_app (e : event) l new old :
  l = (new ++ old)%list -> e :: l = ((e :: new) ++ old)%list.
Proof. intros ->. reflexivity. Qed.

(** Reads the new events off a goal [since w w' ?new] whose [w'] is given
    by the events it adds to [w]. *)
Ltac read_since :=
  unfold since; cbn [log record_event];
  repeat (apply log_cons_app);
  match goal with
  | |- ?old = _ => exact (eq_refl : old = ([] ++ old)%list)
  end.

(** *** Counting events *)

Lemma count_cons p e l : count p (e :: l) = (if p e then 1 else 0) + count p l.
Proof. unfold count. simpl. destruct (p e); reflexivity. Qed.

(** *** Steps that leave the dependency list alone *)

Lemma untouched_refl r w : untouched r w w.
Proof.
  split; [reflexivity |]. exists []. repeat split.
Qed.

Lemma untouched_event r w0 w e :
  writes_deps e = false ->
  (r = false -> reads_deps e = false) ->
  untouched r w0 w -> untouched r w0 (record_event e w).
Proof.
  intros Hw Hr [Hfile [new [Hnew [Hcw Hcr]]]].
  split; [exact Hfile |].
  exists (e :: new). split; [apply since_event; exact Hnew |].
  rewrite !count_cons, Hw, Hcw. split; [reflexivity |].
  intros Hno. rewrite (Hr Hno), (Hcr Hno). reflexivity.
Qed.

Lemma untouched_createVenv r w0 w path :
  untouched r w0 w ->
  untouched r w0 (mkWorld true (manifest_file w) (EvCreateVenv path :: log w)).
Proof.
  intros [Hfile [new [Hnew [Hcw Hcr]]]].
  split; [exact Hfile |].
  exists (EvCreateVenv path :: new). split.
  - unfold since in *. cbn. rewrite Hnew. reflexivity.
  - rewrite !count_cons. cbn. split; auto.
Qed.

Create HintDb frame.
#[local] Hint Resolve untouched_refl untouched_event untouched_createVenv : frame.

(** A child process is no access to the dependency list. *)
Lemma untouched_run host r w0 cmd w :
  untouched r w0 w ->
  wp (run host cmd) (fun _ => untouched r w0) (fun _ => untouched r w0) w.
Proof.
  intros Hw. apply wp_sp_run. intros res _.
  destruct res; apply untouched_event; auto.
Qed.

Lemma untouched_print r w0 line w :
  untouched r w0 w ->
  wp (print line) (fun _ => untouched r w0) (fun _ => untouched r w0) w.
Proof.
  intros Hw. apply wp_print, untouched_event; auto.
Qed.

(** In global mode [installPackage] starts the installer and prints; the
    dependency list it was given is the one it gives back. *)
Lemma global_installPackage host r w0 deps package version installDeps w :
  untouched r w0 w ->
  wp (installPackage host true deps package version installDeps)
     (fun v w' => snd v = deps /\ untouched r w0 w')
     (fun _ => untouched r w0) w.
Proof.
  intros Hw. unfold installPackage.
  apply wp_bind. eapply wp_mono; [apply untouched_run; exact Hw | | auto].
  intros [[rc out] err] w1 H1.
  apply wp_bind. eapply wp_mono; [apply untouched_print; exact H1 | | auto].
  intros [] w2 H2.
  destruct (negb (rc =? 0)%Z).
  - apply wp_bind. eapply wp_mono; [apply untouched_print; exact H2 | | auto].
    intros [] w3 H3. apply wp_ret. split; [reflexivity | exact H3].
  - apply wp_ret. split; [reflexivity | exact H2].
Qed.

Lemma global_install_names host r w0 installed deps names :
  forall w, untouched r w0 w ->
  wp (install_names host true installed deps names)
     (fun _ => untouched r w0) (fun _ => untouched r w0) w.
Proof.
  induction names as [| package rest IH]; intros w Hw; cbn [install_names].
  - apply wp_ret. exact Hw.
  - apply wp_bind.
    destruct (negb (PyStr.mem package installed)).
    + apply wp_bind. eapply wp_mono;
        [apply global_installPackage; exact Hw | | auto].
      intros [v deps'] w1 [Hdeps H1]. simpl in Hdeps. subst deps'.
      apply wp_ret. apply IH. exact H1.
    + apply wp_bind. eapply wp_mono; [apply untouched_print; exact Hw | | auto].
      intros [] w1 H1. apply wp_ret. apply IH. exact H1.
Qed.

Lemma global_install_deps host r w0 installed :
  forall fuel i deps w, untouched r w0 w ->
  wp (install_deps host fuel true installed i deps)
     (fun _ => untouched r w0) (fun _ => untouched r w0) w.
Proof.
  induction fuel as [| fuel IH]; intros i deps w Hw; cbn [install_deps];
    destruct (nth_error deps i) as [dep |];
    try (apply wp_ret; exact Hw); try (apply wp_out_of_fuel; exact Hw).
  apply wp_bind.
  destruct (negb (PyStr.mem dep installed)).
  - apply wp_bind. eapply wp_mono;
      [apply global_installPackage; exact Hw | | auto].
    intros [v deps'] w1 [Hdeps H1]. simpl in Hdeps. subst deps'.
    apply wp_ret. apply IH. exact H1.
  - apply wp_bind. eapply wp_mono; [apply untouched_print; exact Hw | | auto].
    intros [] w1 H1. apply wp_ret. apply IH. exact H1.
Qed.

Lemma untouched_getInstalledPackages host _global r w0 w :
  untouched r w0 w ->
  wp (getInstalledPackages host _global)
     (fun _ => untouched r w0) (fun _ => untouched r w0) w.
Proof.
  intros Hw. unfold getInstalledPackages.
  apply wp_bind. eapply wp_mono; [apply untouched_run; exact Hw | | auto].
  intros [[rc out] err] w1 H1.
  destruct (negb (rc =? 0)%Z); [apply wp_raise | apply wp_ret]; exact H1.
Qed.

Lemma untouched_getMissingDependencies host r w0 w :
  untouched r w0 w ->
  wp (getMissingDependencies host)
     (fun _ => untouched r w0) (fun _ => untouched r w0) w.
Proof.
  intros Hw. unfold getMissingDependencies.
  apply wp_bind. eapply wp_mono; [apply untouched_run; exact Hw | | auto].
  intros [[rc out] err] w1 H1.
  destruct (negb (rc =? 0)%Z); [apply wp_raise | apply wp_ret]; exact H1.
Qed.

Lemma global_install_pass host fuel names r w0 w :
  (names = [] -> r = true) ->
  untouched r w0 w ->
  wp (install_pass host fuel names true)
     (fun _ => untouched r w0) (fun _ => untouched r w0) w.
Proof.
  intros Hr Hw. unfold install_pass.
  apply wp_bind, wp_load.
  2: { intros _. apply untouched_event; auto. }
  intros config _.
  assert (H0 : untouched r w0 (record_event EvLoad w))
    by (apply untouched_event; auto).
  apply wp_bind. apply wp_env_path_exists. apply wp_bind.
  eapply wp_mono with (Q := fun _ => untouched r w0) (E := fun _ => untouched r w0);
    [ destruct (negb (env_exists (record_event EvLoad w)));
      [apply wp_createVenv; auto with frame | apply wp_ret; exact H0] | | auto ].
  intros [] w1 H1.
  apply wp_bind. eapply wp_mono;
    [apply untouched_getInstalledPackages; exact H1 | | auto].
  intros installed w2 H2.
  destruct names as [| name rest].
  - apply wp_bind, wp_dependencies.
    assert (H3 : untouched r w0 (record_event EvGetDeps w2)).
    { apply untouched_event; auto. intros Hno. rewrite Hr in Hno; congruence. }
    apply wp_bind. eapply wp_mono; [apply untouched_print; exact H3 | | auto].
    intros [] w4 H4.
    apply wp_bind. eapply wp_mono; [apply global_install_deps; exact H4 | | auto].
    intros deps' w5 H5. apply wp_ret. exact H5.
  - apply wp_bind. eapply wp_mono; [apply global_install_names; exact H2 | | auto].
    intros deps' w3 H3. apply wp_ret. exact H3.
Qed.

Lemma global_install host :
  forall fuel names r w0 w,
  (names = [] -> r = true) ->
  untouched r w0 w ->
  wp (install host fuel names true)
     (fun _ => untouched r w0) (fun _ => untouched r w0) w.
Proof.
  induction fuel as [| fuel IH]; intros names r w0 w Hr Hw; cbn [install].
  - apply wp_raise. exact Hw.
  - apply wp_bind. eapply wp_mono;
      [apply global_install_pass; [exact Hr | exact Hw] | | auto].
    intros [] w1 H1.
    apply wp_bind. eapply wp_mono;
      [apply untouched_getMissingDependencies; exact H1 | | auto].
    intros missing w2 H2.
    apply wp_bind. eapply wp_mono.
    + apply wp_for_each with (I := untouched r w0) (E := fun _ => untouched r w0);
        [| exact H2].
      intros dep w3 _ H3. apply wp_bind. eapply wp_mono.
      * apply IH; [discriminate | exact H3].
      * intros code w4 H4. apply wp_ret. exact H4.
      * auto.
    + intros [] w3 H3. apply wp_ret. exact H3.
    + auto.
Qed.

Lemma global_uninstall host names w :
  wp (uninstall host names true)
     (fun _ => untouched false w) (fun _ => untouched false w) w.
Proof.
  unfold uninstall. apply wp_bind, wp_env_path_exists.
  destruct (negb (env_exists w)).
  - apply wp_bind, wp_print, wp_ret. auto with frame.
  - apply wp_bind, wp_load.
    + intros config _. apply wp_bind. eapply wp_mono.
      * apply (untouched_run host false w). auto with frame.
      * intros [[rc out] err] w1 H1. apply wp_ret. exact H1.
      * auto.
    + intros _. auto with frame.
Qed.

(** What [wp] says about the final world when value and exception are
    promised the same. *)
Lemma wp_final {A} (m : M A) (I : World -> Prop) w :
  wp m (fun _ => I) (fun _ => I) w -> I (snd (m w)).
Proof.
  unfold wp. destruct (m w) as [[a | e |] w']; auto.
Qed.

(** *** The dependency list holds no entry twice *)

Lemma distinct_save b deps l :
  NoDup deps -> distinct_manifest (mkWorld b (Some deps) l).
Proof. intros Hnd deps' Heq. cbn in Heq. injection Heq as <-. exact Hnd. Qed.

Lemma NoDup_snoc (x : string) l : NoDup l -> ~ In x l -> NoDup (l ++ [x]).
Proof.
  induction l as [| y l IH]; intros Hnd Hx; simpl.
  - constructor; [intros [] | constructor].
  - inversion Hnd as [| ? ? Hy Hl]; subst. constructor.
    + rewrite in_app_iff. intros [Hin | [Heq | []]].
      * exact (Hy Hin).
      * apply Hx. left. symmetry. exact Heq.
    + apply IH; [exact Hl |]. intros Hin. apply Hx. right. exact Hin.
Qed.

Lemma distinct_run host cmd w :
  distinct_manifest w ->
  wp (run host cmd) (fun _ => distinct_manifest) (fun _ => distinct_manifest) w.
Proof.
  intros Hw. apply wp_sp_run. intros res _. destruct res; exact Hw.
Qed.

(** [installPackage]'s loop over the reported packages appends an entry
    only when the list does not hold it yet. *)
Lemma distinct_record_packages packages :
  forall deps w, NoDup deps -> distinct_manifest w ->
  wp (record_packages deps packages)
     (fun deps' w' => NoDup deps' /\ distinct_manifest w')
     (fun _ => distinct_manifest) w.
Proof.
  induction packages as [| package rest IH]; intros deps w Hnd Hw;
    cbn [record_packages].
  - apply wp_ret. split; assumption.
  - destruct (PyStr.rsplit1 "-" package) as [[name version] |];
      [| apply wp_raise; exact Hw].
    cbv zeta. apply wp_bind, wp_dependencies. apply wp_bind.
    destruct (negb (PyStr.mem (name ++ "==" ++ version) deps)) eqn:Hmem.
    + apply negb_true_iff, mem_not_In in Hmem.
      apply wp_bind, wp_dependencies. apply wp_bind, wp_emit, wp_ret.
      apply wp_bind, wp_print.
      apply IH; [apply NoDup_snoc; assumption | exact Hw].
    + apply wp_ret. apply wp_bind, wp_print. apply IH; assumption.
Qed.

Lemma distinct_record_lines lines :
  forall deps w, NoDup deps -> distinct_manifest w ->
  wp (record_lines deps lines)
     (fun deps' w' => NoDup deps' /\ distinct_manifest w')
     (fun _ => distinct_manifest) w.
Proof.
  induction lines as [| line rest IH]; intros deps w Hnd Hw; cbn [record_lines].
  - apply wp_ret. split; assumption.
  - apply wp_bind.
    destruct (PyStr.startswith "Successfully installed" line).
    + eapply wp_mono; [apply distinct_record_packages; assumption | | auto].
      intros deps' w' [Hnd' Hw']. apply IH; assumption.
    + apply wp_ret. apply IH; assumption.
Qed.

Lemma distinct_installPackage host _global deps package version installDeps w :
  NoDup deps -> distinct_manifest w ->
  wp (installPackage host _global deps package version installDeps)
     (fun v w' => NoDup (snd v) /\ distinct_manifest w')
     (fun _ => distinct_manifest) w.
Proof.
  intros Hnd Hw. unfold installPackage. destruct _global.
  - apply wp_bind. eapply wp_mono; [apply distinct_run; exact Hw | | auto].
    intros [[rc out] err] w1 H1. apply wp_bind, wp_print.
    destruct (negb (rc =? 0)%Z).
    + apply wp_bind, wp_print, wp_ret. split; assumption.
    + apply wp_ret. split; assumption.
  - apply wp_bind. eapply wp_mono; [apply distinct_run; exact Hw | | auto].
    intros [[rc out] err] w1 H1.
    destruct (negb (rc =? 0)%Z).
    + apply wp_bind, wp_print, wp_ret. split; assumption.
    + apply wp_bind. eapply wp_mono;
        [apply distinct_record_lines; assumption | | auto].
      intros deps' w2 [Hnd' H2].
      apply wp_bind, wp_save, wp_ret. split; [exact Hnd' |].
      apply distinct_save. exact Hnd'.
Qed.

Lemma distinct_install_names host _global installed names :
  forall deps w, NoDup deps -> distinct_manifest w ->
  wp (install_names host _global installed deps names)
     (fun _ => distinct_manifest) (fun _ => distinct_manifest) w.
Proof.
  induction names as [| package rest IH]; intros deps w Hnd Hw;
    cbn [install_names].
  - apply wp_ret. exact Hw.
  - apply wp_bind.
    destruct (negb (PyStr.mem package installed)).
    + apply wp_bind. eapply wp_mono;
        [apply distinct_installPackage; assumption | | auto].
      intros [v deps'] w1 [Hnd' H1]. apply wp_ret. apply IH; assumption.
    + apply wp_bind, wp_print, wp_ret. apply IH; assumption.
Qed.

Lemma distinct_install_deps host _global installed :
  forall fuel i deps w, NoDup deps -> distinct_manifest w ->
  wp (install_deps host fuel _global installed i deps)
     (fun _ => distinct_manifest) (fun _ => distinct_manifest) w.
Proof.
  induction fuel as [| fuel IH]; intros i deps w Hnd Hw; cbn [install_deps];
    destruct (nth_error deps i) as [dep |];
    try (apply wp_ret; exact Hw); try (apply wp_out_of_fuel; exact Hw).
  apply wp_bind.
  destruct (negb (PyStr.mem dep installed)).
  - apply wp_bind. eapply wp_mono;
      [apply distinct_installPackage; assumption | | auto].
    intros [v deps'] w1 [Hnd' H1]. apply wp_ret. apply IH; assumption.
  - apply wp_bind, wp_print, wp_ret. apply IH; assumption.
Qed.

Lemma distinct_install_pass host fuel names _global w :
  distinct_manifest w ->
  wp (install_pass host fuel names _global)
     (fun _ => distinct_manifest) (fun _ => distinct_manifest) w.
Proof.
  intros Hw. unfold install_pass.
  apply wp_bind, wp_load; [| intros _; exact Hw].
  intros config Hconfig. pose proof (Hw _ Hconfig) as Hnd.
  apply wp_bind, wp_env_path_exists. apply wp_bind.
  eapply wp_mono with (Q := fun _ => distinct_manifest)
                      (E := fun _ => distinct_manifest);
    [ destruct (negb (env_exists (record_event EvLoad w)));
      [apply wp_createVenv | apply wp_ret]; exact Hw | | auto ].
  intros [] w1 H1.
  apply wp_bind. unfold getInstalledPackages.
  apply wp_bind. eapply wp_mono; [apply distinct_run; exact H1 | | auto].
  intros [[rc out] err] w2 H2.
  destruct (negb (rc =? 0)%Z); [apply wp_raise; exact H2 | apply wp_ret].
  destruct names as [| name rest].
  - apply wp_bind, wp_dependencies. apply wp_bind, wp_print.
    apply wp_bind. eapply wp_mono;
      [apply distinct_install_deps; [exact Hnd | exact H2] | | auto].
    intros deps' w3 H3. apply wp_ret. exact H3.
  - apply wp_bind. eapply wp_mono;
      [apply distinct_install_names; [exact Hnd | exact H2] | | auto].
    intros deps' w3 H3. apply wp_ret. exact H3.
Qed.

Lemma distinct_install host _global :
  forall fuel names w, distinct_manifest w ->
  wp (install host fuel names _global)
     (fun _ => distinct_manifest) (fun _ => distinct_manifest) w.
Proof.
  induction fuel as [| fuel IH]; intros names w Hw; cbn [install].
  - apply wp_raise. exact Hw.
  - apply wp_bind. eapply wp_mono;
      [apply distinct_install_pass; exact Hw | | auto].
    intros [] w1 H1. apply wp_bind. unfold getMissingDependencies.
    apply wp_bind. eapply wp_mono; [apply distinct_run; exact H1 | | auto].
    intros [[rc out] err] w2 H2.
    destruct (negb (rc =? 0)%Z); [apply wp_raise; exact H2 | apply wp_ret].
    apply wp_bind. eapply wp_mono.
    + apply wp_for_each with (I := distinct_manifest)
                             (E := fun _ => distinct_manifest); [| exact H2].
      intros dep w3 _ H3. apply wp_bind. eapply wp_mono.
      * apply IH. exact H3.
      * intros code w4 H4. apply wp_ret. exact H4.
      * auto.
    + intros [] w3 H3. apply wp_ret. exact H3.
    + auto.
Qed.

(** *** One save per successful [install] subcommand *)

Lemma settled_refl _global w : settled _global w w.
Proof. exists []. split; [apply since_refl |]. destruct _global; reflexivity. Qed.

Lemma settled_bounded _global w0 w : settled _global w0 w -> bounded _global w0 w.
Proof.
  intros [new [Hnew Hc]]. exists new. split; [exact Hnew |].
  destruct _global; rewrite Hc; split; auto with arith. discriminate.
Qed.

Lemma pending_bounded w0 w : pending w0 w -> bounded false w0 w.
Proof.
  intros [new [Hnew Hc]]. exists new. split; [exact Hnew |].
  split; [lia | discriminate].
Qed.

Lemma settled_event _global w0 w e :
  is_save e = false ->
  (_global = false -> is_install_ok e = false) ->
  settled _global w0 w -> settled _global w0 (record_event e w).
Proof.
  intros Hs Hi [new [Hnew Hc]]. exists (e :: new).
  split; [apply since_event; exact Hnew |].
  rewrite !count_cons, Hs. destruct _global; [exact Hc |].
  rewrite (Hi eq_refl). exact Hc.
Qed.

Lemma settled_createVenv _global w0 w path :
  settled _global w0 w ->
  settled _global w0 (mkWorld true (manifest_file w) (EvCreateVenv path :: log w)).
Proof.
  intros [new [Hnew Hc]]. exists (EvCreateVenv path :: new). split.
  - unfold since in *. cbn. rewrite Hnew. reflexivity.
  - rewrite !count_cons. exact Hc.
Qed.

Lemma pending_event w0 w e :
  is_save e = false -> is_install_ok e = false ->
  pending w0 w -> pending w0 (record_event e w).
Proof.
  intros Hs Hi [new [Hnew Hc]]. exists (e :: new).
  split; [apply since_event; exact Hnew |].
  rewrite !count_cons, Hs, Hi. exact Hc.
Qed.

Lemma settled_pending w0 w e :
  is_install_ok e = true -> settled false w0 w -> pending w0 (record_event e w).
Proof.
  intros Hi [new [Hnew Hc]]. exists (e :: new).
  split; [apply since_event; exact Hnew |].
  rewrite !count_cons, Hi. destruct (is_save e) eqn:Hs.
  - destruct e; try discriminate Hs; discriminate Hi.
  - cbn. rewrite Hc. reflexivity.
Qed.

Lemma pending_save w0 w deps :
  pending w0 w ->
  settled false w0 (mkWorld (env_exists w) (Some deps) (EvSave deps :: log w)).
Proof.
  intros [new [Hnew Hc]]. exists (EvSave deps :: new). split.
  - unfold since in *. cbn. rewrite Hnew. reflexivity.
  - rewrite !count_cons. cbn. exact Hc.
Qed.

Lemma is_install_ok_run pip package flags rc out err :
  is_install_ok (EvRun ([pip; "install"; package] ++ flags) (Completed rc out err))
  = (rc =? 0)%Z.
Proof. destruct rc; reflexivity. Qed.

(** A process other than [install] leaves the count settled. *)
Lemma settled_run host _global w0 cmd w :
  (forall res, is_install_ok (EvRun cmd res) = false) ->
  settled _global w0 w ->
  wp (run host cmd) (fun _ => settled _global w0) (fun _ => settled _global w0) w.
Proof.
  intros Hcmd Hw. apply wp_sp_run. intros res _.
  destruct res; apply settled_event; auto.
Qed.

Lemma pending_record_packages w0 packages :
  forall deps w, pending w0 w ->
  wp (record_packages deps packages) (fun _ => pending w0) (fun _ => pending w0) w.
Proof.
  induction packages as [| package rest IH]; intros deps w Hw;
    cbn [record_packages].
  - apply wp_ret. exact Hw.
  - destruct (PyStr.rsplit1 "-" package) as [[name version] |];
      [| apply wp_raise; exact Hw].
    cbv zeta. apply wp_bind, wp_dependencies. apply wp_bind.
    destruct (negb (PyStr.mem (name ++ "==" ++ version) deps)).
    + apply wp_bind, wp_dependencies. apply wp_bind, wp_emit, wp_ret.
      apply wp_bind, wp_print. apply IH.
      repeat (apply pending_event; [reflexivity | reflexivity |]). exact Hw.
    + apply wp_ret. apply wp_bind, wp_print. apply IH.
      repeat (apply pending_event; [reflexivity | reflexivity |]). exact Hw.
Qed.

Lemma pending_record_lines w0 lines :
  forall deps w, pending w0 w ->
  wp (record_lines deps lines) (fun _ => pending w0) (fun _ => pending w0) w.
Proof.
  induction lines as [| line rest IH]; intros deps w Hw; cbn [record_lines].
  - apply wp_ret. exact Hw.
  - apply wp_bind.
    destruct (PyStr.startswith "Successfully installed" line).
    + eapply wp_mono; [apply pending_record_packages; exact Hw | | auto].
      intros deps' w' Hw'. apply IH. exact Hw'.
    + apply wp_ret. apply IH. exact Hw.
Qed.

Lemma settled_installPackage host _global deps package version installDeps w0 w :
  settled _global w0 w ->
  wp (installPackage host _global deps package version installDeps)
     (fun _ => settled _global w0) (fun _ => bounded _global w0) w.
Proof.
  intros Hw. unfold installPackage. destruct _global.
  - apply wp_bind, wp_sp_run. intros res _. destruct res as [rc out err | msg].
    + apply wp_bind, wp_print.
      destruct (negb (rc =? 0)%Z);
        [apply wp_bind, wp_print |]; apply wp_ret;
        repeat (apply settled_event; [reflexivity | discriminate |]); exact Hw.
    + apply settled_bounded, settled_event; [reflexivity | discriminate | exact Hw].
  - apply wp_bind, wp_sp_run. intros res _. destruct res as [rc out err | msg].
    + destruct (rc =? 0)%Z eqn:Hrc; cbn [negb].
      * apply wp_bind. eapply wp_mono.
        -- apply pending_record_lines with (w0 := w0).
           apply settled_pending; [| exact Hw].
           rewrite is_install_ok_run. exact Hrc.
        -- intros deps' w1 H1. apply wp_bind, wp_save, wp_ret.
           apply pending_save. exact H1.
        -- intros o w1 H1. apply pending_bounded. exact H1.
      * apply wp_bind, wp_print, wp_ret.
        apply settled_event; [reflexivity | reflexivity |].
        apply settled_event; [reflexivity | | exact Hw].
        intros _. rewrite is_install_ok_run. exact Hrc.
    + apply settled_bounded, settled_event; [reflexivity | reflexivity | exact Hw].
Qed.

Lemma settled_install_names host _global installed w0 names :
  forall deps w, settled _global w0 w ->
  wp (install_names host _global installed deps names)
     (fun _ => settled _global w0) (fun _ => bounded _global w0) w.
Proof.
  induction names as [| package rest IH]; intros deps w Hw; cbn [install_names].
  - apply wp_ret. exact Hw.
  - apply wp_bind.
    destruct (negb (PyStr.mem package installed)).
    + apply wp_bind. eapply wp_mono;
        [apply settled_installPackage; exact Hw | | auto].
      intros [v deps'] w1 H1. apply wp_ret. apply IH. exact H1.
    + apply wp_bind, wp_print, wp_ret. apply IH.
      apply settled_event; [reflexivity | reflexivity | exact Hw].
Qed.

Lemma settled_install_deps host _global installed w0 :
  forall fuel i deps w, settled _global w0 w ->
  wp (install_deps host fuel _global installed i deps)
     (fun _ => settled _global w0) (fun _ => bounded _global w0) w.
Proof.
  induction fuel as [| fuel IH]; intros i deps w Hw; cbn [install_deps];
    destruct (nth_error deps i) as [dep |];
    try (apply wp_ret; exact Hw);
    try (apply wp_out_of_fuel, settled_bounded; exact Hw).
  apply wp_bind.
  destruct (negb (PyStr.mem dep installed)).
  - apply wp_bind. eapply wp_mono;
      [apply settled_installPackage; exact Hw | | auto].
    intros [v deps'] w1 H1. apply wp_ret. apply IH. exact H1.
  - apply wp_bind, wp_print, wp_ret. apply IH.
    apply settled_event; [reflexivity | reflexivity | exact Hw].
Qed.

Lemma settled_install_pass host fuel names _global w :
  wp (install_pass host fuel names _global)
     (fun _ => settled _global w) (fun _ => bounded _global w) w.
Proof.
  unfold install_pass.
  assert (H0 : settled _global w (record_event EvLoad w))
    by (apply settled_event; [reflexivity | reflexivity | apply settled_refl]).
  apply wp_bind, wp_load; [| intros _; apply settled_bounded; exact H0].
  intros config _.
  apply wp_bind, wp_env_path_exists. apply wp_bind.
  eapply wp_mono with (Q := fun _ => settled _global w)
                      (E := fun _ => bounded _global w);
    [ destruct (negb (env_exists (record_event EvLoad w)));
      [apply wp_createVenv, settled_createVenv | apply wp_ret]; exact H0 | | auto ].
  intros [] w1 H1.
  apply wp_bind. unfold getInstalledPackages.
  apply wp_bind. eapply wp_mono.
  { apply settled_run; [| exact H1]. intros res. destruct _global; reflexivity. }
  2: { intros o w2 H2. apply settled_bounded. exact H2. }
  intros [[rc out] err] w2 H2.
  destruct (negb (rc =? 0)%Z);
    [apply wp_raise, settled_bounded; exact H2 | apply wp_ret].
  destruct names as [| name rest].
  - apply wp_bind, wp_dependencies. apply wp_bind, wp_print.
    apply wp_bind. eapply wp_mono; [apply settled_install_deps | | ].
    + repeat (apply settled_event; [reflexivity | reflexivity |]). exact H2.
    + intros deps' w3 H3. apply wp_ret. exact H3.
    + auto.
  - apply wp_bind. eapply wp_mono;
      [apply settled_install_names; exact H2 | | auto].
    intros deps' w3 H3. apply wp_ret. exact H3.
Qed.

(** *** A report of missing requirements that never clears *)

Lemma has_manifest_save b deps l : has_manifest (mkWorld b (Some deps) l).
Proof. discriminate. Qed.

Lemma going_record_packages packages :
  forall deps w,
  forallb (fun package => match PyStr.rsplit1 "-" package with
                          | Some _ => true
                          | None => false
                          end) packages = true ->
  has_manifest w ->
  wp (record_packages deps packages) (fun _ => has_manifest) never_short w.
Proof.
  induction packages as [| package rest IH]; intros deps w Hok Hw;
    cbn [record_packages].
  - apply wp_ret. exact Hw.
  - cbn [forallb] in Hok. apply andb_true_iff in Hok as [Hp Hrest].
    destruct (PyStr.rsplit1 "-" package) as [[name version] |];
      [| discriminate Hp].
    cbv zeta. apply wp_bind, wp_dependencies. apply wp_bind.
    destruct (negb (PyStr.mem (name ++ "==" ++ version) deps)).
    + apply wp_bind, wp_dependencies. apply wp_bind, wp_emit, wp_ret.
      apply wp_bind, wp_print. apply IH; [exact Hrest | exact Hw].
    + apply wp_ret. apply wp_bind, wp_print. apply IH; [exact Hrest | exact Hw].
Qed.

Lemma going_record_lines lines :
  forall deps w,
  forallb
    (fun line =>
       negb (PyStr.startswith "Successfully installed" line) ||
       forallb (fun package => match PyStr.rsplit1 "-" package with
                               | Some _ => true
                               | None => false
                               end)
               (skipn 2 (PyStr.split " " line))) lines = true ->
  has_manifest w ->
  wp (record_lines deps lines) (fun _ => has_manifest) never_short w.
Proof.
  induction lines as [| line rest IH]; intros deps w Hok Hw; cbn [record_lines].
  - apply wp_ret. exact Hw.
  - cbn [forallb] in Hok. apply andb_true_iff in Hok as [Hline Hrest].
    apply wp_bind.
    destruct (PyStr.startswith "Successfully installed" line).
    + eapply wp_mono; [apply going_record_packages; [exact Hline | exact Hw] | | auto].
      intros deps' w' Hw'. apply IH; [exact Hrest | exact Hw'].
    + apply wp_ret. apply IH; [exact Hrest | exact Hw].
Qed.

Section NeverSatisfied.

Variable host : Host.
Variable _global : bool.
Hypothesis Hhost : never_satisfied host _global.

Lemma going_installPackage deps package w :
  has_manifest w ->
  wp (installPackage host _global deps package None false)
     (fun _ => has_manifest) never_short w.
Proof.
  intros Hw. destruct Hhost as [_ [Hinstall _]].
  destruct (Hinstall (log w) package) as [rc [out [err [Hrun Hout]]]].
  unfold installPackage. cbn [truthy app]. destruct _global.
  - apply wp_bind, wp_sp_run. intros res ->. rewrite Hrun.
    apply wp_bind, wp_print.
    destruct (negb (rc =? 0)%Z); [apply wp_bind, wp_print |];
      apply wp_ret; exact Hw.
  - apply wp_bind, wp_sp_run. intros res ->. rewrite Hrun.
    destruct (rc =? 0)%Z eqn:Hrc; cbn [negb].
    + apply Z.eqb_eq in Hrc. apply wp_bind. eapply wp_mono.
      * apply going_record_lines; [exact (Hout Hrc) | exact Hw].
      * intros deps' w1 H1. apply wp_bind, wp_save, wp_ret.
        apply has_manifest_save.
      * auto.
    + apply wp_bind, wp_print, wp_ret. exact Hw.
Qed.

Lemma going_install_names installed names :
  forall deps w, has_manifest w ->
  wp (install_names host _global installed deps names)
     (fun _ => has_manifest) never_short w.
Proof.
  induction names as [| package rest IH]; intros deps w Hw; cbn [install_names].
  - apply wp_ret. exact Hw.
  - apply wp_bind.
    destruct (negb (PyStr.mem package installed)).
    + apply wp_bind. eapply wp_mono;
        [apply going_installPackage; exact Hw | | auto].
      intros [v deps'] w1 H1. apply wp_ret. apply IH. exact H1.
    + apply wp_bind, wp_print, wp_ret. apply IH. exact Hw.
Qed.

Lemma going_install_pass fuel names w :
  names <> [] ->
  has_manifest w ->
  wp (install_pass host fuel names _global) (fun _ => has_manifest) never_short w.
Proof.
  intros Hnames Hw. destruct Hhost as [Hfreeze _]. unfold install_pass.
  apply wp_bind, wp_load; [| intros Hnone; contradiction].
  intros config _.
  apply wp_bind, wp_env_path_exists. apply wp_bind.
  eapply wp_mono with (Q := fun _ => has_manifest) (E := never_short);
    [ destruct (negb (env_exists (record_event EvLoad w)));
      [apply wp_createVenv | apply wp_ret]; exact Hw | | auto ].
  intros [] w1 H1.
  apply wp_bind. unfold getInstalledPackages.
  destruct (Hfreeze (log w1)) as [out [err Hrun]].
  apply wp_bind, wp_sp_run. intros res ->. rewrite Hrun.
  cbn [Z.eqb negb]. apply wp_ret.
  destruct names as [| name rest]; [contradiction Hnames; reflexivity |].
  apply wp_bind. eapply wp_mono;
    [apply going_install_names; exact H1 | | auto].
  intros deps' w3 H3. apply wp_ret. exact H3.
Qed.

(** Every invocation for a request that is not empty ends one level
    deeper: at the level for which the interpreter has no room left. *)
Lemma install_to_the_limit :
  forall fuel names w, names <> [] -> has_manifest w ->
  wp (install host fuel names _global) (fun _ _ => False) limit_reached w.
Proof.
  induction fuel as [| fuel IH]; intros names w Hnames Hw; cbn [install].
  - apply wp_raise. reflexivity.
  - apply wp_bind. eapply wp_mono;
      [apply going_install_pass; [exact Hnames | exact Hw] | | intros o w' []].
    intros [] w1 H1. destruct Hhost as [_ [_ Hcheck]].
    destruct (Hcheck (log w1)) as [out [err [Hrun Hmissing]]].
    apply wp_bind. unfold getMissingDependencies.
    apply wp_bind, wp_sp_run. intros res ->. rewrite Hrun.
    cbn [Z.eqb negb]. apply wp_ret.
    destruct (PyStr.findall_requires out) as [| dep missing];
      [contradiction |].
    apply wp_bind. cbn [for_each]. apply wp_bind, wp_bind.
    eapply wp_mono; [apply IH; [discriminate | exact H1] | | auto].
    intros code w2 [].
Qed.

Lemma install_to_the_limit_result fuel names w :
  names <> [] -> has_manifest w ->
  fst (install host fuel names _global w) = Raise RecursionError.
Proof.
  intros Hnames Hw.
  pose proof (wp_outcome _ _ _ _ (install_to_the_limit fuel names w Hnames Hw)) as H.
  destruct (fst (install host fuel names _global w)) as [code | e |].
  - contradiction.
  - unfold limit_reached in H. congruence.
  - discriminate H.
Qed.

End NeverSatisfied.

(** What [install] does after a pass when [check] exits with a code
    other than 0: it raises, and the run of [check] is the last thing that
    happened. *)
Lemma install_check_refused host fuel names _global w :
  check_refuses host ->
  fst (install_pass host fuel names _global w) = Val tt ->
  fst (install host (S fuel) names _global w) =
    Raise (Exception "Failed to check for missing dependencies") /\
  exists res,
    snd (install host (S fuel) names _global w) =
    record_event (EvRun [env_pip host; "check"] res)
      (snd (install_pass host fuel names _global w)).
Proof.
  intros Hcheck Hpass. cbn [install].
  unfold getMissingDependencies, run, run_try. cbv [bind ret raise].
  destruct (install_pass host fuel names _global w) as [r w1].
  cbn [fst snd] in *. subst r.
  destruct (Hcheck (log w1)) as [rc [out [err [Hrun Hrc]]]].
  apply Z.eqb_neq in Hrc.
  rewrite Hrun, Hrc. cbn. split; [reflexivity |]. eexists. reflexivity.
Qed.

Lemma cycle_host_never_satisfied : never_satisfied cycle_host false.
Proof.
  repeat split.
  - intros h. eexists. eexists. reflexivity.
  - intros h package. eexists. eexists. eexists. split; reflexivity.
  - intros h. eexists. eexists. split; [reflexivity | discriminate].
Qed.

(** *** [install] has one exit *)

(** Whatever happened on the way, the value [install] returns is 0. *)
Lemma install_returns_zero host fuel names _global w code :
  fst (install host fuel names _global w) = Val code -> code = 0%Z.
Proof.
  assert (H : wp (install host fuel names _global)
                 (fun code _ => code = 0%Z) (fun _ _ => True) w).
  { destruct fuel as [| fuel]; cbn [install].
    - apply wp_raise. exact I.
    - apply wp_bind. apply wp_any; [| auto]. intros [] w1.
      apply wp_bind. apply wp_any; [| auto]. intros missing w2.
      apply wp_bind. apply wp_any; [| auto]. intros [] w3.
      apply wp_ret. reflexivity. }
  apply wp_outcome in H. intros Hval. rewrite Hval in H. exact H.
Qed.

(** *** Finding an entry by its bare name *)

Lemma find_dep_In name deps dep : find_dep name deps = Some dep -> In dep deps.
Proof.
  induction deps as [| d rest IH]; simpl; [discriminate |].
  destruct (String.eqb (bare_name d) name).
  - intros [= ->]. left. reflexivity.
  - intros H. right. apply IH. exact H.
Qed.

(** *** The processes a command starts *)

Lemma ran_refl w : ran w w [].
Proof. exists []. split; reflexivity. Qed.

Lemma ran_event w0 w l e :
  is_run e = false -> ran w0 w l -> ran w0 (record_event e w) l.
Proof.
  intros He [new [Hnew Hl]]. exists (e :: new).
  split; [apply since_event; exact Hnew |]. cbn [filter]. rewrite He. exact Hl.
Qed.

Lemma ran_process w0 w l cmd res :
  ran w0 w l -> ran w0 (record_event (EvRun cmd res) w) (EvRun cmd res :: l).
Proof.
  intros [new [Hnew Hl]]. exists (EvRun cmd res :: new).
  split; [apply since_event; exact Hnew |]. cbn [filter is_run]. rewrite Hl.
  reflexivity.
Qed.

Lemma ran_save w0 w l deps :
  ran w0 w l -> ran w0 (mkWorld (env_exists w) (Some deps) (EvSave deps :: log w)) l.
Proof.
  intros [new [Hnew Hl]]. exists (EvSave deps :: new). split.
  - unfold since in *. cbn. rewrite Hnew. reflexivity.
  - exact Hl.
Qed.

(** The one process [uninstall_package] starts is the installer's
    [uninstall] for the string [name==version] it builds. *)
Lemma uninstall_caught_ran host name version msg w0 w l :
  ran w0 w l ->
  wp (uninstall_caught host name version msg)
     (fun _ w' => ran w0 w' l) (fun _ _ => False) w.
Proof.
  intros Hw. unfold uninstall_caught.
  apply wp_bind, wp_print. apply wp_bind, wp_print. apply wp_bind, wp_print, wp_ret.
  repeat (apply ran_event; [reflexivity |]). exact Hw.
Qed.

Lemma uninstall_package_ran host name version w0 w :
  ran w0 w [] ->
  wp (uninstall_package host name version)
     (fun _ w' => exists res,
        ran w0 w' [EvRun [env_pip host; "uninstall"; "-y"; name ++ "==" ++ version] res])
     (fun _ _ => False) w.
Proof.
  intros Hw. unfold uninstall_package.
  apply wp_bind, wp_run_try.
  set (res := sp_run host (log w) _).
  assert (Hres : ran w0
            (record_event
               (EvRun [env_pip host; "uninstall"; "-y"; name ++ "==" ++ version] res) w)
            [EvRun [env_pip host; "uninstall"; "-y"; name ++ "==" ++ version] res])
    by (apply ran_process; exact Hw).
  destruct res as [rc out err | msg].
  - destruct (negb (rc =? 0)%Z).
    + destruct (decode host err) as [text | msg].
      * apply wp_bind, wp_print, wp_ret. eexists.
        apply ran_event; [reflexivity | exact Hres].
      * eapply wp_mono; [apply uninstall_caught_ran; exact Hres | | auto].
        intros r w' Hw'. eexists. exact Hw'.
    + apply wp_bind, wp_print, wp_ret. eexists.
      apply ran_event; [reflexivity | exact Hres].
  - eapply wp_mono; [apply uninstall_caught_ran; exact Hres | | auto].
    intros r w' Hw'. eexists. exact Hw'.
Qed.

(** ** [uninstall] without an environment *)

(** C7. If no environment exists at the environment path, [uninstall]
    returns 1 at once, for every list of names and in both modes: the only
    thing it does is print a message, so the manifest is not loaded, its
    dependency list is not touched and the manifest file is not written. *)
Theorem uninstall_without_environment
    (host : Host) (names : list string) (_global : bool) (w : World) :
  env_exists w = false ->
  fst (uninstall host names _global w) = Val 1%Z /\
  since w (snd (uninstall host names _global w)) [EvPrint "No environment found"] /\
  manifest_file (snd (uninstall host names _global w)) = manifest_file w.
Proof.
  intros Hno. unfold uninstall, bind, env_path_exists.
  rewrite Hno. cbn. repeat split.
Qed.

Lemma uninstall_without_environment_witness :
  fst (uninstall quiet_host ["requests"] false (mkWorld false (Some ["requests==2.26.0"]) []))
    = Val 1%Z /\
  manifest_file
    (snd (uninstall quiet_host ["requests"] false
            (mkWorld false (Some ["requests==2.26.0"]) [])))
    = Some ["requests==2.26.0"].
Proof.
  pose proof (uninstall_without_environment quiet_host ["requests"] false
                (mkWorld false (Some ["requests==2.26.0"]) []) eq_refl) as [Hr [_ Hm]].
  split; [exact Hr | exact Hm].
Defined.

(** ** The exit code of the installer's [check] *)

(** C5, as the code has it.  [getMissingDependencies] returns the names
    parsed from the output only when [check] exits with code 0; every other
    exit code raises, whatever the output reports. *)
Theorem getMissingDependencies_exit_code
    (host : Host) (w : World) (rc : Z) (out err : string) :
  sp_run host (log w) [env_pip host; "check"] = Completed rc out err ->
  fst (getMissingDependencies host w) =
    if (rc =? 0)%Z
    then Val (PyStr.findall_requires out)
    else Raise (Exception "Failed to check for missing dependencies").
Proof.
  intros Hrun. unfold getMissingDependencies, run, run_try, bind.
  rewrite Hrun. cbn. destruct (rc =? 0)%Z; reflexivity.
Qed.

Lemma getMissingDependencies_exit_code_witness :
  fst (getMissingDependencies quiet_host fresh_project) = Val [].
Proof.
  exact (getMissingDependencies_exit_code quiet_host fresh_project 0
           "No broken requirements found." "" eq_refl).
Defined.

(** C5, as stated, fails: an installer that exits with code 1 because it
    found a broken requirement, and names the missing package in its
    output, makes [getMissingDependencies] raise instead of returning that
    name. *)
Lemma check_problems_exit_raises :
  sp_run problems_host (log fresh_project) [env_pip problems_host; "check"]
    = Completed 1 "a 1.0 requires b, which is not installed." "" /\
  PyStr.findall_requires "a 1.0 requires b, which is not installed." = ["b"] /\
  fst (getMissingDependencies problems_host fresh_project)
    = Raise (Exception "Failed to check for missing dependencies").
Proof. repeat split. Qed.

(** ** Nothing to install *)

(** C9. With an empty dependency list in the manifest, an installer
    whose [freeze] succeeds (the Installed Set may be empty) and whose
    [check] reports nothing, [install([])] returns 0 and never runs the
    installer's [install] subcommand: the only processes it starts are the
    two queries [freeze] and [check]. *)
Theorem install_nothing_declared
    (host : Host) (_global : bool) (fuel : nat) (w : World)
    (fout ferr cout cerr : string) :
  manifest_file w = Some [] ->
  (forall h, sp_run host h
               [if _global then GLOBAL_PIP_EXECUTABLE host else env_pip host; "freeze"]
             = Completed 0 fout ferr) ->
  (forall h, sp_run host h [env_pip host; "check"] = Completed 0 cout cerr) ->
  PyStr.findall_requires cout = [] ->
  fst (install host (S fuel) [] _global w) = Val 0%Z /\
  exists new,
    since w (snd (install host (S fuel) [] _global w)) new /\
    count is_install new = 0 /\
    filter is_run new =
      [ EvRun [env_pip host; "check"] (Completed 0 cout cerr);
        EvRun [if _global then GLOBAL_PIP_EXECUTABLE host else env_pip host; "freeze"]
              (Completed 0 fout ferr) ].
Proof.
  intros Hdeps Hfreeze Hcheck Hnone.
  unfold install, install_pass, getInstalledPackages, getMissingDependencies,
    run, run_try, bind, PyProject.load, env_path_exists.
  rewrite Hdeps. cbn.
  destruct (env_exists w) eqn:Henv; cbn;
    rewrite Hfreeze; cbn; rewrite install_deps_end by reflexivity; cbn;
    rewrite Hcheck; cbn; rewrite Hnone; cbn.
  - split; [reflexivity |].
    eexists. split; [read_since |].
    split; reflexivity.
  - split; [reflexivity |].
    eexists. split; [read_since |].
    split; reflexivity.
Qed.

Lemma install_nothing_declared_witness :
  fst (install quiet_host 1 [] false fresh_project) = Val 0%Z.
Proof.
  refine (proj1 (install_nothing_declared quiet_host false 0 fresh_project
                   "" "" "No broken requirements found." "" eq_refl _ _ eq_refl)).
  - intros h. reflexivity.
  - intros h. reflexivity.
Defined.

(** ** Global mode and the manifest *)

(** C4, as the code has it.  With the global flag set, whatever the
    outcome, neither [install] nor [uninstall] writes the dependency list
    (no append, no removal, no save: the manifest file keeps its content),
    and [uninstall] and [install] with a non-empty request do not read it
    either.  [install] with an empty request is the exception: it reads
    the list to take it as its work list. *)
Theorem global_mode_leaves_manifest
    (host : Host) (fuel : nat) (names : list string) (w : World) :
  (manifest_file (snd (install host fuel names true w)) = manifest_file w /\
   exists new,
     since w (snd (install host fuel names true w)) new /\
     count writes_deps new = 0 /\
     (names <> [] -> count reads_deps new = 0)) /\
  (manifest_file (snd (uninstall host names true w)) = manifest_file w /\
   exists new,
     since w (snd (uninstall host names true w)) new /\
     count writes_deps new = 0 /\
     count reads_deps new = 0).
Proof.
  split.
  - destruct names as [| name rest].
    + pose proof (wp_final _ _ _
        (global_install host fuel [] true w w (fun _ => eq_refl) (untouched_refl _ _)))
        as [Hfile [new [Hnew [Hw _]]]].
      split; [exact Hfile |]. exists new. repeat split; auto. congruence.
    + pose proof (wp_final _ _ _
        (global_install host fuel (name :: rest) false w w
           ltac:(discriminate) (untouched_refl _ _)))
        as [Hfile [new [Hnew [Hw Hr]]]].
      split; [exact Hfile |]. exists new. repeat split; auto.
  - pose proof (wp_final _ _ _ (global_uninstall host names w))
      as [Hfile [new [Hnew [Hw Hr]]]].
    split; [exact Hfile |]. exists new. repeat split; auto.
Qed.

Lemma global_mode_leaves_manifest_witness :
  manifest_file (snd (install quiet_host 2 ["requests"] true
                        (mkWorld true (Some ["x==1"]) [])))
    = Some ["x==1"] /\
  manifest_file (snd (uninstall quiet_host ["x"] true
                        (mkWorld true (Some ["x==1"]) [])))
    = Some ["x==1"].
Proof.
  pose proof (global_mode_leaves_manifest quiet_host 2 ["requests"]
                (mkWorld true (Some ["x==1"]) [])) as [[Hi _] _].
  pose proof (global_mode_leaves_manifest quiet_host 2 ["x"]
                (mkWorld true (Some ["x==1"]) [])) as [_ [Hu _]].
  split; [exact Hi | exact Hu].
Defined.

(** C4, as stated, fails: [install([])] with the global flag reads the
    dependency list of the manifest, and what it finds there is what it
    asks the global installer to install. *)
Lemma global_install_reads_dependencies :
  count reads_deps
    (log (snd (install quiet_host 2 [] true (mkWorld true (Some ["x==1"]) [])))) = 1 /\
  In (EvRun ["/usr/bin/python3 -m pip"; "install"; "x==1"] (Completed 0 "" ""))
    (log (snd (install quiet_host 2 [] true (mkWorld true (Some ["x==1"]) [])))).
Proof.
  split; [reflexivity |]. vm_compute. tauto.
Qed.

(** ** When the manifest is saved *)

(** C8, as the code has it.  In one invocation of [install], before any
    nested invocation starts (the pass [install_pass]): in isolated mode
    the manifest is saved once for every [install] subcommand that exited
    with code 0, each time as soon as that subcommand's output has been
    recorded; in global mode it is never saved.  A pass cut short by an
    exception has saved at most that often. *)
Theorem install_pass_saves
    (host : Host) (fuel : nat) (names : list string) (_global : bool) (w : World) :
  exists new,
    since w (snd (install_pass host fuel names _global w)) new /\
    count is_save new <= count is_install_ok new /\
    (_global = true -> count is_save new = 0) /\
    (_global = false ->
     fst (install_pass host fuel names _global w) = Val tt ->
     count is_save new = count is_install_ok new).
Proof.
  pose proof (wp_outcome _ _ _ _ (settled_install_pass host fuel names _global w)) as H.
  destruct (install_pass host fuel names _global w) as [[[] | e |] w'];
    cbn [fst snd] in *.
  - pose proof (settled_bounded _ _ _ H) as [new' [Hnew' [Hle Hg]]].
    destruct H as [new [Hnew Hc]].
    assert (new' = new) as ->
      by (unfold since in *; rewrite Hnew in Hnew';
          apply app_inv_tail in Hnew'; congruence).
    exists new. repeat split; auto.
    intros -> _. exact Hc.
  - destruct H as [new [Hnew [Hle Hg]]]. exists new. repeat split; auto.
    discriminate.
  - destruct H as [new [Hnew [Hle Hg]]]. exists new. repeat split; auto.
    discriminate.
Qed.

Lemma install_pass_saves_witness :
  exists new,
    since fresh_project (snd (install_pass obliging_host 1 ["a"; "b"] false fresh_project)) new /\
    count is_save new = count is_install_ok new.
Proof.
  destruct (install_pass_saves obliging_host 1 ["a"; "b"] false fresh_project)
    as [new [Hnew [_ [_ Heq]]]].
  exists new. split; [exact Hnew |].
  apply Heq; reflexivity.
Defined.

(** C8, as stated, fails: [install(["a", "b"])] in isolated mode, with an
    installer that installs both and a [check] that finds nothing (so that
    [install] is entered once: the manifest is loaded once), saves the
    manifest twice, the first time before [b] is even looked at. *)
Lemma two_installs_two_saves :
  fst (install obliging_host 1 ["a"; "b"] false fresh_project) = Val 0%Z /\
  count (fun e => match e with EvLoad => true | _ => false end)
    (log (snd (install obliging_host 1 ["a"; "b"] false fresh_project))) = 1 /\
  filter (fun e => is_save e || is_install e)
    (rev (log (snd (install obliging_host 1 ["a"; "b"] false fresh_project)))) =
  [ EvRun [".ppm.env/bin/pip"; "install"; "a"]
      (Completed 0 ("Successfully installed a-1.0" ++ PyStr.LF) "");
    EvSave ["a==1.0"];
    EvRun [".ppm.env/bin/pip"; "install"; "b"]
      (Completed 0 ("Successfully installed b-1.0" ++ PyStr.LF) "");
    EvSave ["a==1.0"; "b==1.0"] ].
Proof. repeat split. Qed.

(** ** No entry twice in the dependency list *)

(** C10. If the dependency list of the manifest holds no entry twice
    before an isolated-mode [install], it holds none twice afterwards,
    whatever the installer reports and however the command ends:
    [installPackage] appends a reported [name==version] only when the list
    does not hold that string yet ([distinct_record_packages]). *)
Theorem install_keeps_dependencies_distinct
    (host : Host) (fuel : nat) (names : list string) (w : World) :
  distinct_manifest w ->
  distinct_manifest (snd (install host fuel names false w)).
Proof.
  intros Hw. apply wp_final with (I := distinct_manifest).
  apply distinct_install. exact Hw.
Qed.

Lemma install_keeps_dependencies_distinct_witness :
  distinct_manifest
    (snd (install obliging_host 2 ["a"; "b"; "a"] false
            (mkWorld true (Some ["a==1.0"]) []))).
Proof.
  apply (install_keeps_dependencies_distinct obliging_host 2 ["a"; "b"; "a"]
           (mkWorld true (Some ["a==1.0"]) [])).
  intros deps Heq. simpl in Heq. injection Heq as <-.
  constructor; [simpl; tauto | constructor].
Defined.

(** ** Missing requirements that are reported again and again *)




(** ** Already installed *)

(** C3, as the code has it.  A work-list entry that is, as a whole
    string, one of the lines of the Installed Set snapshot is skipped: its
    round of the loop prints one message and goes on with the next entry,
    with the same dependency list and without starting any process.  This
    holds for the loop over the requested names and for the loop over the
    dependency list of the manifest. *)
Theorem install_skips_listed_entry
    (host : Host) (_global : bool) (installed deps : list string) (entry : string) :
  In entry installed ->
  (forall rest w,
     install_names host _global installed deps (entry :: rest) w =
     install_names host _global installed deps rest
       (record_event (EvPrint ("Package " ++ entry ++ " is already installed")) w)) /\
  (forall fuel i w,
     nth_error deps i = Some entry ->
     install_deps host (S fuel) _global installed i deps w =
     install_deps host fuel _global installed (S i) deps
       (record_event (EvPrint ("Dependency " ++ entry ++ " is already installed")) w)).
Proof.
  intros Hin. apply mem_In in Hin. split.
  - intros rest w. cbn [install_names]. rewrite Hin. reflexivity.
  - intros fuel i w Hnth. cbn [install_deps]. rewrite Hnth, Hin. reflexivity.
Qed.

Lemma install_skips_listed_entry_witness :
  install_names requests_host false ["requests==2.26.0"; ""] ["requests==2.26.0"]
    ["requests==2.26.0"] requests_project =
  (Val ["requests==2.26.0"],
   record_event (EvPrint "Package requests==2.26.0 is already installed")
     requests_project).
Proof.
  refine (proj1 (install_skips_listed_entry requests_host false
                   ["requests==2.26.0"; ""] ["requests==2.26.0"] "requests==2.26.0" _)
            [] requests_project).
  simpl. tauto.
Defined.

(** C3, as stated, fails: [requests] 2.26.0 is installed, so the bare name
    of the entry [requests] is the bare name of a line of the snapshot, and
    still [install(["requests"])] runs the installer for it. *)
Lemma bare_name_is_not_skipped :
  fst (getInstalledPackages requests_host false requests_project)
    = Val ["requests==2.26.0"; ""] /\
  In (bare_name "requests") (map bare_name ["requests==2.26.0"; ""]) /\
  filter is_install
    (log (snd (install requests_host 1 ["requests"] false requests_project))) =
  [ EvRun [".ppm.env/bin/pip"; "install"; "requests"]
      (Completed 0 "Requirement already satisfied: requests" "") ].
Proof.
  split; [reflexivity |]. split; [left; reflexivity | reflexivity].
Qed.

(** ** A failing [install] subcommand *)

(** C1 does not hold of the code: [install] drops the exit code that
    [installPackage] hands back, and 0 is the only value it ever returns
    ([install_returns_zero]).  Here the installer exits with code 1 for
    [a]; [install(["a", "b"])] prints the error text, goes on to install
    [b], and returns 0. *)
Theorem failed_install_is_ignored :
  fst (installPackage picky_host false [] "a" None false fresh_project)
    = Val (Some 1%Z, []) /\
  fst (install picky_host 1 ["a"; "b"] false fresh_project) = Val 0%Z /\
  filter is_install
    (rev (log (snd (install picky_host 1 ["a"; "b"] false fresh_project)))) =
  [ EvRun [".ppm.env/bin/pip"; "install"; "a"]
      (Completed 1 "" "ERROR: No matching distribution found for a");
    EvRun [".ppm.env/bin/pip"; "install"; "b"]
      (Completed 0 ("Successfully installed b-1.0" ++ PyStr.LF) "") ].
Proof. repeat split. Qed.

(** ** The two ways to name a package for [uninstall] *)

(** C2 does not hold of the code.  With [requests==2.26.0] the first
    entry for [requests] in the dependency list, in isolated mode,
    [uninstall(["requests"])] starts one process, the installer's
    [uninstall] for [requests==2.26.0]; [uninstall(["requests==2.26.0"])]
    starts one process too, but for [requests==2.26.0==2.26.0]: the
    version is appended to a name that already carries it. *)
Theorem uninstall_forms_differ (host : Host) (deps : list string) (w : World) :
  env_exists w = true ->
  manifest_file w = Some deps ->
  find_dep "requests" deps = Some "requests==2.26.0" ->
  (exists res,
     ran w (snd (uninstall host ["requests"] false w))
       [EvRun [env_pip host; "uninstall"; "-y"; "requests==2.26.0"] res]) /\
  (exists res,
     ran w (snd (uninstall host ["requests==2.26.0"] false w))
       [EvRun [env_pip host; "uninstall"; "-y"; "requests==2.26.0==2.26.0"] res]).
Proof.
  intros Henv Hdeps Hfind.
  pose proof (find_dep_In _ _ _ Hfind) as Hin. apply mem_In in Hin.
  assert (H0 : ran w (record_event EvGetDeps (record_event EvLoad w)) [])
    by (repeat (apply ran_event; [reflexivity |]); apply ran_refl).
  split.
  - apply wp_final with
      (I := fun w' => exists res,
         ran w w' [EvRun [env_pip host; "uninstall"; "-y"; "requests==2.26.0"] res]).
    unfold uninstall.
    apply wp_bind, wp_env_path_exists. rewrite Henv. cbn [negb].
    apply wp_bind, wp_load; [| congruence]. intros config Hconfig.
    assert (config = deps) as -> by congruence.
    apply wp_bind, wp_dependencies.
    apply wp_bind. cbn [uninstall_names]. apply wp_bind.
    unfold uninstall_name.
    change (PyStr.contains "==" "requests") with false. cbv iota.
    rewrite Hfind.
    change (nth_error (PyStr.split "==" "requests==2.26.0") 1) with (Some "2.26.0").
    cbv iota. apply wp_bind, wp_emit. apply wp_bind. eapply wp_mono.
    + apply uninstall_package_ran with (w0 := w).
      apply ran_event; [reflexivity | exact H0].
    + intros r w1 [res H1]. apply wp_ret.
      destruct r as [rc |]; [apply wp_ret; exists res; exact H1 |].
      cbn [uninstall_names]. apply wp_ret. apply wp_bind, wp_save, wp_ret.
      exists res. apply ran_save. exact H1.
    + intros o w1 [].
  - apply wp_final with
      (I := fun w' => exists res,
         ran w w' [EvRun [env_pip host; "uninstall"; "-y"; "requests==2.26.0==2.26.0"] res]).
    unfold uninstall.
    apply wp_bind, wp_env_path_exists. rewrite Henv. cbn [negb].
    apply wp_bind, wp_load; [| congruence]. intros config Hconfig.
    assert (config = deps) as -> by congruence.
    apply wp_bind, wp_dependencies.
    apply wp_bind. cbn [uninstall_names]. apply wp_bind.
    unfold uninstall_name.
    change (PyStr.contains "==" "requests==2.26.0") with true. cbv iota.
    rewrite Hin.
    change (nth_error (PyStr.split "==" "requests==2.26.0") 1) with (Some "2.26.0").
    cbv iota. apply wp_bind, wp_emit. apply wp_bind. eapply wp_mono.
    + apply uninstall_package_ran with (w0 := w).
      apply ran_event; [reflexivity | exact H0].
    + intros r w1 [res H1]. apply wp_ret.
      destruct r as [rc |]; [apply wp_ret; exists res; exact H1 |].
      cbn [uninstall_names]. apply wp_ret. apply wp_bind, wp_save, wp_ret.
      exists res. apply ran_save. exact H1.
    + intros o w1 [].
Qed.

Lemma uninstall_forms_differ_witness :
  exists res,
    ran requests_project
      (snd (uninstall requests_host ["requests==2.26.0"] false requests_project))
      [EvRun [env_pip requests_host; "uninstall"; "-y"; "requests==2.26.0==2.26.0"] res].
Proof.
  exact (proj2 (uninstall_forms_differ requests_host ["requests==2.26.0"]
                  requests_project eq_refl eq_refl eq_refl)).
Defined.

(** ** What every run of [install] keeps *)

(** A property [I] of worlds, with a property [P] of dependency lists
    behind it, that no step [install] can take destroys. *)
Section InstallInvariant.

Variable host : Host.
Variable _global : bool.
Variable P : list string -> Prop.
Variable I : World -> Prop.

Hypothesis I_event :
  forall e w, install_event host _global e -> I w -> I (record_event e w).
Hypothesis I_createVenv :
  forall w, I w -> I (mkWorld true (manifest_file w) (EvCreateVenv envPath :: log w)).
Hypothesis I_load :
  forall deps w, I w -> manifest_file w = Some deps -> P deps.
Hypothesis I_save :
  forall deps w, P deps -> I w ->
  I (mkWorld (env_exists w) (Some deps) (EvSave deps :: log w)).
Hypothesis P_append :
  forall deps name version,
  P deps -> ~ In (name ++ "==" ++ version) deps ->
  P (deps ++ [name ++ "==" ++ version]).

Lemma kept_run cmd w :
  install_command host _global cmd -> I w ->
  wp (run host cmd) (fun _ => I) (fun _ => I) w.
Proof.
  intros Hcmd Hw. apply wp_sp_run. intros res _.
  destruct res; apply I_event; auto.
Qed.

Lemma kept_print line w :
  I w -> wp (print line) (fun _ => I) (fun _ => I) w.
Proof. intros Hw. apply wp_print, I_event; [exact Logic.I | exact Hw]. Qed.

Lemma kept_record_packages packages :
  forall deps w, P deps -> I w ->
  wp (record_packages deps packages)
     (fun deps' w' => P deps' /\ I w') (fun _ => I) w.
Proof.
  induction packages as [| package rest IH]; intros deps w HP Hw;
    cbn [record_packages].
  - apply wp_ret. split; assumption.
  - destruct (PyStr.rsplit1 "-" package) as [[name version] |];
      [| apply wp_raise; exact Hw].
    cbv zeta. apply wp_bind, wp_dependencies. apply wp_bind.
    destruct (negb (PyStr.mem (name ++ "==" ++ version) deps)) eqn:Hmem.
    + apply negb_true_iff, mem_not_In in Hmem.
      apply wp_bind, wp_dependencies. apply wp_bind, wp_emit, wp_ret.
      apply wp_bind, wp_print. apply IH; [apply P_append; assumption |].
      repeat (apply I_event; [exact Logic.I |]). exact Hw.
    + apply wp_ret. apply wp_bind, wp_print. apply IH; [exact HP |].
      repeat (apply I_event; [exact Logic.I |]). exact Hw.
Qed.

Lemma kept_record_lines lines :
  forall deps w, P deps -> I w ->
  wp (record_lines deps lines)
     (fun deps' w' => P deps' /\ I w') (fun _ => I) w.
Proof.
  induction lines as [| line rest IH]; intros deps w HP Hw; cbn [record_lines].
  - apply wp_ret. split; assumption.
  - apply wp_bind.
    destruct (PyStr.startswith "Successfully installed" line).
    + eapply wp_mono; [apply kept_record_packages; assumption | | auto].
      intros deps' w' [HP' Hw']. apply IH; assumption.
    + apply wp_ret. apply IH; assumption.
Qed.

Lemma kept_installPackage_in mode deps package w :
  mode = _global -> P deps -> I w ->
  wp (installPackage host mode deps package None false)
     (fun v w' => P (snd v) /\ I w') (fun _ => I) w.
Proof.
  intros Hmode HP Hw.
  assert (Hcmd : install_command host _global
            [if mode then GLOBAL_PIP_EXECUTABLE host else env_pip host;
             "install"; package])
    by (right; right; exists package; rewrite Hmode; reflexivity).
  unfold installPackage. cbn [truthy app]. destruct mode.
  - apply wp_bind. eapply wp_mono; [apply kept_run; [exact Hcmd | exact Hw] | | auto].
    intros [[rc out] err] w1 H1. apply wp_bind, wp_print.
    destruct (negb (rc =? 0)%Z).
    + apply wp_bind, wp_print, wp_ret. split; [exact HP |].
      repeat (apply I_event; [exact Logic.I |]). exact H1.
    + apply wp_ret. split; [exact HP |]. apply I_event; [exact Logic.I | exact H1].
  - apply wp_bind. eapply wp_mono; [apply kept_run; [exact Hcmd | exact Hw] | | auto].
    intros [[rc out] err] w1 H1.
    destruct (negb (rc =? 0)%Z).
    + apply wp_bind, wp_print, wp_ret. split; [exact HP |].
      apply I_event; [exact Logic.I | exact H1].
    + apply wp_bind. eapply wp_mono;
        [apply kept_record_lines; assumption | | auto].
      intros deps' w2 [HP' H2].
      apply wp_bind, wp_save, wp_ret. split; [exact HP' |].
      apply I_save; assumption.
Qed.

Lemma kept_installPackage deps package w :
  P deps -> I w ->
  wp (installPackage host _global deps package None false)
     (fun v w' => P (snd v) /\ I w') (fun _ => I) w.
Proof. apply kept_installPackage_in. reflexivity. Qed.

Lemma kept_install_names installed names :
  forall deps w, P deps -> I w ->
  wp (install_names host _global installed deps names)
     (fun _ => I) (fun _ => I) w.
Proof.
  induction names as [| package rest IH]; intros deps w HP Hw;
    cbn [install_names].
  - apply wp_ret. exact Hw.
  - apply wp_bind.
    destruct (negb (PyStr.mem package installed)).
    + apply wp_bind. eapply wp_mono;
        [apply kept_installPackage; assumption | | auto].
      intros [v deps'] w1 [HP' H1]. apply wp_ret. apply IH; assumption.
    + apply wp_bind, wp_print, wp_ret. apply IH; [exact HP |].
      apply I_event; [exact Logic.I | exact Hw].
Qed.

Lemma kept_install_deps installed :
  forall fuel i deps w, P deps -> I w ->
  wp (install_deps host fuel _global installed i deps)
     (fun _ => I) (fun _ => I) w.
Proof.
  induction fuel as [| fuel IH]; intros i deps w HP Hw; cbn [install_deps];
    destruct (nth_error deps i) as [dep |];
    try (apply wp_ret; exact Hw); try (apply wp_out_of_fuel; exact Hw).
  apply wp_bind.
  destruct (negb (PyStr.mem dep installed)).
  - apply wp_bind. eapply wp_mono;
      [apply kept_installPackage; assumption | | auto].
    intros [v deps'] w1 [HP' H1]. apply wp_ret. apply IH; assumption.
  - apply wp_bind, wp_print, wp_ret. apply IH; [exact HP |].
    apply I_event; [exact Logic.I | exact Hw].
Qed.

Lemma kept_getInstalledPackages w :
  I w ->
  wp (getInstalledPackages host _global) (fun _ => I) (fun _ => I) w.
Proof.
  intros Hw. unfold getInstalledPackages.
  apply wp_bind. eapply wp_mono; [apply kept_run; [| exact Hw] | | auto].
  - left. reflexivity.
  - intros [[rc out] err] w1 H1.
    destruct (negb (rc =? 0)%Z); [apply wp_raise | apply wp_ret]; exact H1.
Qed.

Lemma kept_getMissingDependencies w :
  I w ->
  wp (getMissingDependencies host) (fun _ => I) (fun _ => I) w.
Proof.
  intros Hw. unfold getMissingDependencies.
  apply wp_bind. eapply wp_mono; [apply kept_run; [| exact Hw] | | auto].
  - right. left. reflexivity.
  - intros [[rc out] err] w1 H1.
    destruct (negb (rc =? 0)%Z); [apply wp_raise | apply wp_ret]; exact H1.
Qed.

(** The work-list loops of a pass, entered with the manifest [config]
    loaded and the snapshot taken. *)
Lemma kept_work_list fuel names installed config w :
  P config -> I w ->
  wp (match names with
      | [] =>
          deps <- PyProject.dependencies config ;;
          print ("Installing " ++ PyStr.of_nat (List.length deps) ++ " dependencies") ;;
          install_deps host fuel _global installed 0 deps ;;
          ret tt
      | _ :: _ =>
          install_names host _global installed config names ;;
          ret tt
      end)
     (fun _ => I) (fun _ => I) w.
Proof.
  intros HP Hw. destruct names as [| name rest].
  - apply wp_bind, wp_dependencies. apply wp_bind, wp_print.
    apply wp_bind. eapply wp_mono; [apply kept_install_deps; [exact HP |] | | auto].
    + repeat (apply I_event; [exact Logic.I |]). exact Hw.
    + intros deps' w3 H3. apply wp_ret. exact H3.
  - apply wp_bind. eapply wp_mono;
      [apply kept_install_names; assumption | | auto].
    intros deps' w3 H3. apply wp_ret. exact H3.
Qed.

Lemma kept_install_pass fuel names w :
  I w ->
  wp (install_pass host fuel names _global) (fun _ => I) (fun _ => I) w.
Proof.
  intros Hw. unfold install_pass.
  assert (H0 : I (record_event EvLoad w)) by (apply I_event; [exact Logic.I | exact Hw]).
  apply wp_bind, wp_load; [| intros _; exact H0].
  intros config Hconfig. pose proof (I_load _ _ Hw Hconfig) as HP.
  apply wp_bind, wp_env_path_exists. apply wp_bind.
  eapply wp_mono with (Q := fun _ => I) (E := fun _ => I);
    [ destruct (negb (env_exists (record_event EvLoad w)));
      [apply wp_createVenv, I_createVenv | apply wp_ret]; exact H0 | | auto ].
  intros [] w1 H1.
  apply wp_bind. eapply wp_mono; [apply kept_getInstalledPackages; exact H1 | | auto].
  intros installed w2 H2. apply kept_work_list; assumption.
Qed.

Lemma kept_nested_installs fuel (missing : list string) w :
  (forall names w', I w' ->
     wp (install host fuel names _global) (fun _ => I) (fun _ => I) w') ->
  I w ->
  wp (for_each (fun dep => install host fuel [dep] _global ;; ret tt) missing)
     (fun _ => I) (fun _ => I) w.
Proof.
  intros IH Hw.
  apply wp_for_each with (I := I) (E := fun _ => I); [| exact Hw].
  intros dep w3 _ H3. apply wp_bind. eapply wp_mono.
  - apply IH. exact H3.
  - intros code w4 H4. apply wp_ret. exact H4.
  - auto.
Qed.

Lemma kept_install :
  forall fuel names w, I w ->
  wp (install host fuel names _global) (fun _ => I) (fun _ => I) w.
Proof.
  induction fuel as [| fuel IH]; intros names w Hw; cbn [install].
  - apply wp_raise. exact Hw.
  - apply wp_bind. eapply wp_mono; [apply kept_install_pass; exact Hw | | auto].
    intros [] w1 H1.
    apply wp_bind. eapply wp_mono;
      [apply kept_getMissingDependencies; exact H1 | | auto].
    intros missing w2 H2.
    apply wp_bind. eapply wp_mono;
      [apply kept_nested_installs; [exact IH | exact H2] | | auto].
    intros [] w3 H3. apply wp_ret. exact H3.
Qed.

End InstallInvariant.

(** *** The events of [install] *)

Lemma logs_only_refl allowed w : logs_only allowed w w.
Proof. exists []. split; [apply since_refl | constructor]. Qed.

Lemma logs_only_event (allowed : event -> Prop) w0 w e :
  allowed e -> logs_only allowed w0 w -> logs_only allowed w0 (record_event e w).
Proof.
  intros He [new [Hnew Hall]]. exists (e :: new).
  split; [apply since_event; exact Hnew | constructor; assumption].
Qed.

Lemma logs_only_world (allowed : event -> Prop) w0 w e b file :
  allowed e -> logs_only allowed w0 w ->
  logs_only allowed w0 (mkWorld b file (e :: log w)).
Proof.
  intros He [new [Hnew Hall]]. exists (e :: new). split.
  - unfold since in *. cbn. rewrite Hnew. reflexivity.
  - constructor; assumption.
Qed.

(** X1. Whatever the installer answers and however the command ends,
    [install] starts three kinds of processes only: the [freeze] query of
    its mode, [install] with exactly one package and no further flag, and
    the [check] query, which is always put to the installer of the
    isolated environment, in global mode too.  It never removes an entry
    from the dependency list. *)
Theorem install_events
    (host : Host) (fuel : nat) (names : list string) (_global : bool) (w : World) :
  logs_only (install_event host _global) w (snd (install host fuel names _global w)).
Proof.
  apply wp_final with (I := logs_only (install_event host _global) w).
  apply kept_install with (P := fun _ => True).
  - intros e w1 He H1. apply logs_only_event; assumption.
  - intros w1 H1. apply logs_only_world; [exact I | exact H1].
  - intros deps w1 _ _. exact I.
  - intros deps w1 _ H1. apply logs_only_world; [exact I | exact H1].
  - intros deps name version _ _. exact I.
  - apply logs_only_refl.
Qed.

(** *** [install] only appends *)

(** X2. [install] only ever appends to the dependency list: whatever
    the mode, the installer's answers and the outcome, the manifest on disk
    afterwards starts with the entries it held before, in the same order. *)
Theorem install_only_appends
    (host : Host) (fuel : nat) (names : list string) (_global : bool) (w : World)
    (deps : list string) :
  manifest_file w = Some deps ->
  keeps_prefix deps (snd (install host fuel names _global w)).
Proof.
  intros Hdeps. apply wp_final with (I := keeps_prefix deps).
  apply kept_install with (P := fun l => exists added, l = (deps ++ added)%list).
  - intros e w1 _ H1. exact H1.
  - intros w1 H1. exact H1.
  - intros l w1 [added H1] Hl. exists added. congruence.
  - intros l w1 [added ->] _. exists added. reflexivity.
  - intros l name version [added ->] _. eexists. rewrite <- app_assoc. reflexivity.
  - exists []. rewrite app_nil_r. exact Hdeps.
Qed.

Lemma install_only_appends_witness :
  keeps_prefix ["z==9"; "a==1.0"]
    (snd (install obliging_host 3 ["b"; "a"] false
            (mkWorld true (Some ["z==9"; "a==1.0"]) []))).
Proof.
  apply (install_only_appends obliging_host 3 ["b"; "a"] false
           (mkWorld true (Some ["z==9"; "a==1.0"]) []) ["z==9"; "a==1.0"]).
  reflexivity.
Defined.

(** *** Entries [uninstall] can take apart *)

Lemma startswith_app p s : PyStr.startswith p (p ++ s) = true.
Proof.
  induction p as [| c p IH]; simpl; [reflexivity |].
  rewrite Ascii.eqb_refl. exact IH.
Qed.

Lemma contains_app sub a b : PyStr.contains sub (a ++ sub ++ b) = true.
Proof.
  induction a as [| c a IH].
  - simpl. destruct (sub ++ b) eqn:Heq; simpl;
      rewrite <- Heq, startswith_app; reflexivity.
  - change ((String c a) ++ sub ++ b) with (String c (a ++ sub ++ b)).
    cbn [PyStr.contains]. rewrite IH. apply orb_true_r.
Qed.

(** X3. Every entry [install] writes carries a [==]: if all entries of
    the manifest do before [install], all do afterwards, in every mode and
    for every outcome. *)
Theorem install_writes_versioned_entries
    (host : Host) (fuel : nat) (names : list string) (_global : bool) (w : World) :
  versioned_manifest w ->
  versioned_manifest (snd (install host fuel names _global w)).
Proof.
  intros Hw. apply wp_final with (I := versioned_manifest).
  apply kept_install with (P := versioned).
  - intros e w1 _ H1. exact H1.
  - intros w1 H1. exact H1.
  - intros deps w1 H1 Hdeps. exact (H1 _ Hdeps).
  - intros deps w1 HP _ deps' Heq. cbn in Heq. injection Heq as <-. exact HP.
  - intros deps name version HP _. apply Forall_app. split; [exact HP |].
    constructor; [apply contains_app | constructor].
  - exact Hw.
Qed.

Lemma install_writes_versioned_entries_witness :
  versioned_manifest
    (snd (install obliging_host 2 ["b"] false (mkWorld true (Some ["a==1.0"]) []))).
Proof.
  apply (install_writes_versioned_entries obliging_host 2 ["b"] false
           (mkWorld true (Some ["a==1.0"]) [])).
  intros deps Heq. simpl in Heq. injection Heq as <-.
  constructor; [reflexivity | constructor].
Defined.

(** *** The environment after [install] *)

(** X4. [install] creates the environment when it is missing, in global
    mode as well: once the manifest has been loaded, the environment
    exists when [install] ends, whatever the installer answered and
    however the command ended. *)
Theorem install_creates_environment
    (host : Host) (fuel : nat) (names : list string) (_global : bool) (w : World) :
  has_manifest w ->
  env_exists (snd (install host (S fuel) names _global w)) = true.
Proof.
  intros Hw.
  set (there := fun w' : World => env_exists w' = true).
  assert (Hevent : forall e w', install_event host _global e -> there w' ->
                                there (record_event e w')) by (intros; assumption).
  assert (Hvenv : forall w', there w' ->
            there (mkWorld true (manifest_file w') (EvCreateVenv envPath :: log w')))
    by reflexivity.
  assert (Hload : forall (deps : list string) w', there w' ->
            manifest_file w' = Some deps -> True) by auto.
  assert (Hsave : forall deps w', True -> there w' ->
            there (mkWorld (env_exists w') (Some deps) (EvSave deps :: log w')))
    by (intros; assumption).
  assert (Happend : forall (deps : list string) (name version : string),
            True -> ~ In (name ++ "==" ++ version) deps -> True) by auto.
  apply wp_final with (I := there). cbn [install].
  apply wp_bind. unfold install_pass.
  apply wp_bind, wp_load; [| intros Hnone; contradiction].
  intros config _. apply wp_bind, wp_env_path_exists. apply wp_bind.
  eapply wp_mono with (Q := fun _ => there) (E := fun _ => there);
    [ destruct (env_exists (record_event EvLoad w)) eqn:Henv; cbn [negb];
      [apply wp_ret; exact Henv | apply wp_createVenv; reflexivity] | | auto ].
  intros [] w1 H1.
  apply wp_bind. eapply wp_mono;
    [eapply kept_getInstalledPackages; eauto | | auto].
  intros installed w2 H2. eapply wp_mono.
  - eapply kept_work_list with (P := fun _ => True); eauto.
  - intros [] w3 H3.
    apply wp_bind. eapply wp_mono;
      [eapply kept_getMissingDependencies; eauto | | auto].
    intros missing w4 H4.
    apply wp_bind. eapply wp_mono.
    + eapply kept_nested_installs; [| exact H4].
      intros names' w' Hw'. eapply kept_install with (P := fun _ => True); eauto.
    + intros [] w5 H5. apply wp_ret. exact H5.
    + auto.
  - auto.
Qed.

Lemma install_creates_environment_witness :
  env_exists (snd (install broken_host 1 ["a"] true (mkWorld false (Some []) [])))
    = true.
Proof.
  apply (install_creates_environment broken_host 0 ["a"] true
           (mkWorld false (Some []) [])).
  discriminate.
Defined.

(** *** A failing [freeze] *)

(** X5. When the [freeze] query exits with a code other than 0,
    [install] raises at once, with a message that holds the placeholder
    [{res.returncode}] and not the exit code: no [install] subcommand has
    been run and the manifest file is as it was. *)
Theorem install_freeze_failure
    (host : Host) (fuel : nat) (names : list string) (_global : bool) (w : World)
    (rc : Z) (out err : string) :
  has_manifest w ->
  rc <> 0%Z ->
  (forall h, sp_run host h
               [if _global then GLOBAL_PIP_EXECUTABLE host else env_pip host; "freeze"]
             = Completed rc out err) ->
  fst (install host (S fuel) names _global w) =
    Raise (Exception "Failed to get installed packages (exit code: {res.returncode})") /\
  manifest_file (snd (install host (S fuel) names _global w)) = manifest_file w /\
  exists new,
    since w (snd (install host (S fuel) names _global w)) new /\
    count is_install new = 0.
Proof.
  intros Hw Hrc Hfreeze.
  destruct (manifest_file w) as [deps |] eqn:Hdeps; [| contradiction Hw; exact Hdeps].
  apply Z.eqb_neq in Hrc.
  unfold install, install_pass, getInstalledPackages, run, run_try, bind,
    PyProject.load, env_path_exists.
  rewrite Hdeps. cbn.
  destruct (env_exists w); cbn; rewrite Hfreeze; cbn; rewrite Hrc; cbn.
  - repeat split; [exact Hdeps |]. eexists. split; [read_since | reflexivity].
  - repeat split; [exact Hdeps |]. eexists. split; [read_since | reflexivity].
Qed.

Lemma install_freeze_failure_witness :
  fst (install broken_host 1 ["a"] false fresh_project) =
    Raise (Exception "Failed to get installed packages (exit code: {res.returncode})").
Proof.
  refine (proj1 (install_freeze_failure broken_host 0 ["a"] false fresh_project
                   2 "" "ERROR: freeze failed" _ _ _)).
  - discriminate.
  - discriminate.
  - intros h. reflexivity.
Defined.

(** *** What [installPackage] records *)

Lemma rsplit1_last sep name version :
  PyStr.rsplit1 sep version = None ->
  PyStr.rsplit1 sep (name ++ String sep version) = Some (name, version).
Proof.
  intros Hversion. induction name as [| c name IH]; simpl.
  - rewrite Hversion, Ascii.eqb_refl. reflexivity.
  - rewrite IH. reflexivity.
Qed.

(** The loop over the reported words, as a function of the list: the
    words are added one by one, each unless it is there already, and the
    first word without a hyphen ends the loop with a [ValueError].  The
    manifest file and the environment are not touched. *)
Lemma record_packages_spec packages :
  forall deps w,
  fst (record_packages deps packages w) =
    (if forallb (fun package => match PyStr.rsplit1 "-" package with
                                | Some _ => true
                                | None => false
                                end) packages
     then Val (recorded_words deps packages)
     else Raise ValueError) /\
  manifest_file (snd (record_packages deps packages w)) = manifest_file w.
Proof.
  induction packages as [| package rest IH]; intros deps w;
    cbn [record_packages forallb].
  - split; reflexivity.
  - assert (Hstep : recorded_words deps (package :: rest) =
                    recorded_words (add_entry deps (entry_of package)) rest)
      by reflexivity.
    rewrite Hstep. unfold entry_of.
    destruct (PyStr.rsplit1 "-" package) as [[name version] |];
      [| split; reflexivity].
    cbv zeta. cbn [andb].
    cbv [bind PyProject.dependencies emit print ret]. unfold add_entry.
    destruct (PyStr.mem (name ++ "==" ++ version) deps); cbn [negb];
      match goal with
      | |- context [record_packages ?d rest ?w'] =>
          destruct (IH d w') as [Hval Hfile]; rewrite Hval, Hfile
      end; split; reflexivity.
Qed.

Lemma record_lines_spec lines :
  forall deps w,
  fst (record_lines deps lines w) =
    (if forallb
          (fun line =>
             negb (PyStr.startswith "Successfully installed" line) ||
             forallb (fun package => match PyStr.rsplit1 "-" package with
                                     | Some _ => true
                                     | None => false
                                     end)
                     (skipn 2 (PyStr.split " " line))) lines
     then Val (fold_left
                 (fun deps line =>
                    if PyStr.startswith "Successfully installed" line
                    then recorded_words deps (skipn 2 (PyStr.split " " line))
                    else deps) lines deps)
     else Raise ValueError) /\
  manifest_file (snd (record_lines deps lines w)) = manifest_file w.
Proof.
  induction lines as [| line rest IH]; intros deps w;
    cbn [record_lines forallb fold_left].
  - split; reflexivity.
  - unfold bind.
    destruct (PyStr.startswith "Successfully installed" line); cbn [negb orb].
    + pose proof (record_packages_spec (skipn 2 (PyStr.split " " line)) deps w)
        as [Hval Hfile].
      destruct (record_packages deps (skipn 2 (PyStr.split " " line)) w)
        as [r w1]. cbn [fst snd] in Hval, Hfile. subst r.
      destruct (forallb _ (skipn 2 (PyStr.split " " line))); cbn [andb].
      * destruct (IH (recorded_words deps (skipn 2 (PyStr.split " " line))) w1)
          as [Hval' Hfile']. rewrite Hval', Hfile'. split; [reflexivity | exact Hfile].
      * split; [reflexivity | exact Hfile].
    + cbn [ret andb]. apply IH.
Qed.

(** X6. A reported word [name-version] whose version has no hyphen is
    recorded as the entry [name==version], whatever hyphens the name has:
    the entry is appended to the dependency list unless the list holds it
    already. *)
Theorem reported_word_recorded
    (deps : list string) (name version : string) (w : World) :
  PyStr.rsplit1 "-" version = None ->
  fst (record_packages deps [name ++ "-" ++ version] w) =
    Val (add_entry deps (name ++ "==" ++ version)).
Proof.
  intros Hversion.
  pose proof (rsplit1_last "-" name version Hversion) as Hsplit.
  change (name ++ String "-" version) with (name ++ "-" ++ version) in Hsplit.
  rewrite (proj1 (record_packages_spec _ deps w)).
  cbn [forallb]. unfold recorded_words, entry_of. cbn [map fold_left].
  rewrite Hsplit. reflexivity.
Qed.

Lemma reported_word_recorded_witness :
  fst (record_packages ["six==1.16.0"] ["charset-normalizer-3.3.2"] fresh_project) =
    Val ["six==1.16.0"; "charset-normalizer==3.3.2"].
Proof.
  exact (reported_word_recorded ["six==1.16.0"] "charset-normalizer" "3.3.2"
           fresh_project eq_refl).
Defined.

Lemma installPackage_after_exit_0 host deps package w out err :
  sp_run host (log w) [env_pip host; "install"; package] = Completed 0 out err ->
  installPackage host false deps package None false w =
  (deps' <- record_lines deps (PyStr.split PyStr.LF out) ;;
   PyProject.save deps' ;;
   ret (Some 0%Z, deps'))
    (record_event (EvRun [env_pip host; "install"; package] (Completed 0 out err)) w).
Proof.
  intros Hrun. unfold installPackage. cbn [truthy app].
  cbv [run run_try bind ret]. rewrite Hrun. reflexivity.
Qed.

(** X7. In isolated mode, when the [install] subcommand exits with code
    0, [installPackage] does one of two things.  If every reported word
    has a hyphen, it returns 0 and saves the dependency list with the
    reported entries recorded.  If a reported word has none (an empty
    word between two spaces, say), it raises [ValueError] and the manifest
    file is not written, although the installer has done its work. *)
Theorem installPackage_saves_or_raises
    (host : Host) (deps : list string) (package : string) (w : World)
    (out err : string) :
  sp_run host (log w) [env_pip host; "install"; package] = Completed 0 out err ->
  (parsable_output out = true ->
   fst (installPackage host false deps package None false w)
     = Val (Some 0%Z, recorded deps out) /\
   manifest_file (snd (installPackage host false deps package None false w))
     = Some (recorded deps out)) /\
  (parsable_output out = false ->
   fst (installPackage host false deps package None false w) = Raise ValueError /\
   manifest_file (snd (installPackage host false deps package None false w))
     = manifest_file w).
Proof.
  intros Hrun.
  rewrite (installPackage_after_exit_0 host deps package w out err Hrun).
  pose proof (record_lines_spec (PyStr.split PyStr.LF out) deps
                (record_event
                   (EvRun [env_pip host; "install"; package] (Completed 0 out err)) w))
    as [Hval Hfile].
  unfold bind.
  destruct (record_lines deps (PyStr.split PyStr.LF out) _) as [r w1].
  cbn [fst snd] in Hval, Hfile. subst r.
  fold (parsable_output out). fold (recorded deps out).
  split; intros Hparse; rewrite Hparse.
  - split; reflexivity.
  - split; [reflexivity | exact Hfile].
Qed.

Lemma installPackage_saves_or_raises_witness :
  fst (installPackage sloppy_host false [] "six" None false fresh_project)
    = Raise ValueError /\
  manifest_file (snd (installPackage sloppy_host false [] "six" None false fresh_project))
    = Some [].
Proof.
  exact (proj2 (installPackage_saves_or_raises sloppy_host [] "six" fresh_project
                  "Successfully installed  six-1.16.0" "" eq_refl) eq_refl).
Defined.

(** ** What every run of [uninstall] keeps *)

Section UninstallInvariant.

Variable host : Host.
Variable _global : bool.
Variable names : list string.
Variable P : list string -> Prop.
Variable I : World -> Prop.

Hypothesis I_event :
  forall e w, uninstall_event host _global names e -> I w -> I (record_event e w).
Hypothesis I_load :
  forall deps w, I w -> manifest_file w = Some deps -> P deps.
Hypothesis I_save :
  forall deps w, P deps -> I w ->
  I (mkWorld (env_exists w) (Some deps) (EvSave deps :: log w)).
Hypothesis P_remove :
  forall deps entry, P deps -> P (PyStr.remove_first entry deps).

Lemma kept_uninstall_caught name version msg w :
  I w -> wp (uninstall_caught host name version msg) (fun _ => I) (fun _ => I) w.
Proof.
  intros Hw. unfold uninstall_caught.
  apply wp_bind, wp_print. apply wp_bind, wp_print. apply wp_bind, wp_print, wp_ret.
  repeat (apply I_event; [exact Logic.I |]). exact Hw.
Qed.

Lemma kept_uninstall_package name version w :
  _global = false -> I w ->
  wp (uninstall_package host name version) (fun _ => I) (fun _ => I) w.
Proof.
  intros Hmode Hw. unfold uninstall_package.
  apply wp_bind, wp_run_try.
  assert (H1 : I (record_event
                    (EvRun [env_pip host; "uninstall"; "-y"; name ++ "==" ++ version]
                       (sp_run host (log w)
                          [env_pip host; "uninstall"; "-y"; name ++ "==" ++ version])) w)).
  { apply I_event; [| exact Hw]. cbn. unfold uninstall_command. rewrite Hmode.
    eexists. reflexivity. }
  destruct (sp_run host (log w) _) as [rc out err | msg].
  - destruct (negb (rc =? 0)%Z).
    + destruct (decode host err) as [text | msg].
      * apply wp_bind, wp_print, wp_ret. apply I_event; [exact Logic.I | exact H1].
      * apply kept_uninstall_caught. exact H1.
    + apply wp_bind, wp_print, wp_ret. apply I_event; [exact Logic.I | exact H1].
  - apply kept_uninstall_caught. exact H1.
Qed.

Lemma kept_uninstall_name deps name w :
  _global = false -> P deps -> I w ->
  wp (uninstall_name host deps name)
     (fun v w' => P (snd v) /\ I w') (fun _ => I) w.
Proof.
  intros Hmode HP Hw. unfold uninstall_name.
  destruct (PyStr.contains "==" name).
  - destruct (PyStr.mem name deps).
    + apply wp_bind, wp_emit.
      assert (H1 : I (record_event (EvRemove name) w))
        by (apply I_event; [exact Logic.I | exact Hw]).
      destruct (nth_error (PyStr.split "==" name) 1) as [version |];
        [| apply wp_raise; exact H1].
      apply wp_bind. eapply wp_mono;
        [apply kept_uninstall_package; assumption | | auto].
      intros r w2 H2. apply wp_ret. split; [apply P_remove; exact HP | exact H2].
    + apply wp_bind, wp_print, wp_ret. split; [exact HP |].
      apply I_event; [exact Logic.I | exact Hw].
  - destruct (find_dep name deps) as [dep |].
    + destruct (nth_error (PyStr.split "==" dep) 1) as [version |];
        [| apply wp_raise; exact Hw].
      apply wp_bind, wp_emit.
      apply wp_bind. eapply wp_mono;
        [apply kept_uninstall_package;
         [exact Hmode | apply I_event; [exact Logic.I | exact Hw]] | | auto].
      intros r w2 H2. apply wp_ret. split; [apply P_remove; exact HP | exact H2].
    + apply wp_bind, wp_print, wp_ret. split; [exact HP |].
      apply I_event; [exact Logic.I | exact Hw].
Qed.

Lemma kept_uninstall_names requested :
  forall deps w, _global = false -> P deps -> I w ->
  wp (uninstall_names host deps requested)
     (fun v w' => P (snd v) /\ I w') (fun _ => I) w.
Proof.
  induction requested as [| name rest IH]; intros deps w Hmode HP Hw;
    cbn [uninstall_names].
  - apply wp_ret. split; assumption.
  - apply wp_bind. eapply wp_mono;
      [apply kept_uninstall_name; assumption | | auto].
    intros [r deps'] w1 [HP' H1]. cbn [snd] in HP'.
    destruct r as [rc |].
    + apply wp_ret. split; assumption.
    + apply IH; assumption.
Qed.

Lemma kept_uninstall_in mode w :
  mode = _global -> I w ->
  wp (uninstall host names mode) (fun _ => I) (fun _ => I) w.
Proof.
  intros Hmode Hw. unfold uninstall.
  apply wp_bind, wp_env_path_exists.
  destruct (negb (env_exists w)).
  - apply wp_bind, wp_print, wp_ret. apply I_event; [exact Logic.I | exact Hw].
  - assert (H0 : I (record_event EvLoad w))
      by (apply I_event; [exact Logic.I | exact Hw]).
    apply wp_bind, wp_load; [| intros _; exact H0].
    intros config Hconfig. pose proof (I_load _ _ Hw Hconfig) as HP.
    destruct mode.
    + apply wp_bind, wp_sp_run. intros res _.
      assert (H1 : I (record_event
                        (EvRun ([GLOBAL_PIP_EXECUTABLE host; "uninstall"; "-y"] ++ names)
                           res) (record_event EvLoad w))).
      { apply I_event; [| exact H0]. cbn. unfold uninstall_command.
        rewrite <- Hmode. reflexivity. }
      destruct res as [rc out err | msg]; [apply wp_ret |]; exact H1.
    + apply wp_bind, wp_dependencies.
      apply wp_bind. eapply wp_mono.
      * apply kept_uninstall_names; [symmetry; exact Hmode | exact HP |].
        apply I_event; [exact Logic.I | exact H0].
      * intros [r deps'] w1 [HP' H1]. cbn [snd] in HP'.
        destruct r as [rc |]; [apply wp_ret; exact H1 |].
        apply wp_bind, wp_save, wp_ret. apply I_save; assumption.
      * auto.
Qed.

Lemma kept_uninstall w :
  I w -> wp (uninstall host names _global) (fun _ => I) (fun _ => I) w.
Proof. apply kept_uninstall_in. reflexivity. Qed.

End UninstallInvariant.

(** *** The events of [uninstall] *)

(** X8. Whatever the installer answers, [uninstall] never creates the
    environment and never appends to the dependency list, and the only
    processes it starts are the installer's [uninstall -y]: in global mode
    with all the names it was given, in isolated mode with one
    [name==version] word per process. *)
Theorem uninstall_events
    (host : Host) (names : list string) (_global : bool) (w : World) :
  logs_only (uninstall_event host _global names) w
    (snd (uninstall host names _global w)) /\
  env_exists (snd (uninstall host names _global w)) = env_exists w.
Proof.
  apply wp_final with
    (I := fun w' => logs_only (uninstall_event host _global names) w w' /\
                    env_exists w' = env_exists w).
  apply kept_uninstall with (P := fun _ => True).
  - intros e w1 He [H1 Henv]. split; [apply logs_only_event; assumption | exact Henv].
  - intros deps w1 _ _. exact I.
  - intros deps w1 _ [H1 Henv]. split; [| exact Henv].
    apply logs_only_world; [exact I | exact H1].
  - intros deps entry _. exact I.
  - split; [apply logs_only_refl | reflexivity].
Qed.

(** *** [uninstall] only removes *)

Lemma remove_first_incl entry deps : incl (PyStr.remove_first entry deps) deps.
Proof.
  induction deps as [| dep rest IH]; simpl; [apply incl_refl |].
  destruct (String.eqb dep entry).
  - apply incl_tl, incl_refl.
  - intros x [Hx | Hx]; [left; exact Hx | right; apply IH; exact Hx].
Qed.

Lemma remove_first_NoDup entry deps : NoDup deps -> NoDup (PyStr.remove_first entry deps).
Proof.
  induction deps as [| dep rest IH]; simpl; intros Hnd; [exact Hnd |].
  inversion Hnd as [| ? ? Hdep Hrest]; subst.
  destruct (String.eqb dep entry); [exact Hrest |].
  constructor; [| apply IH; exact Hrest].
  intros Hin. apply Hdep. apply (remove_first_incl entry rest). exact Hin.
Qed.

(** X9. [uninstall] adds nothing to the manifest: in both modes and for
    every outcome, each entry of the dependency list on disk afterwards
    was an entry of it before. *)
Theorem uninstall_only_removes
    (host : Host) (names : list string) (_global : bool) (w : World)
    (deps : list string) :
  manifest_file w = Some deps ->
  within deps (snd (uninstall host names _global w)).
Proof.
  intros Hdeps. apply wp_final with (I := within deps).
  apply kept_uninstall with (P := fun l => incl l deps).
  - intros e w1 _ H1. exact H1.
  - intros l w1 H1 Hl. exact (H1 _ Hl).
  - intros l w1 HP _ l' Heq. cbn in Heq. injection Heq as <-. exact HP.
  - intros l entry HP. eapply incl_tran; [apply remove_first_incl | exact HP].
  - intros l Hl. rewrite Hdeps in Hl. injection Hl as <-. apply incl_refl.
Qed.

Lemma uninstall_only_removes_witness :
  within ["a==1.0"; "b==1.0"]
    (snd (uninstall obliging_host ["a"] false
            (mkWorld true (Some ["a==1.0"; "b==1.0"]) []))).
Proof.
  apply (uninstall_only_removes obliging_host ["a"] false
           (mkWorld true (Some ["a==1.0"; "b==1.0"]) []) ["a==1.0"; "b==1.0"]).
  reflexivity.
Defined.

(** X10. [uninstall] keeps the dependency list free of repeated
    entries: if the manifest on disk holds no entry twice before, it holds
    none twice afterwards. *)
Theorem uninstall_keeps_dependencies_distinct
    (host : Host) (names : list string) (_global : bool) (w : World) :
  distinct_manifest w ->
  distinct_manifest (snd (uninstall host names _global w)).
Proof.
  intros Hw. apply wp_final with (I := distinct_manifest).
  apply kept_uninstall with (P := @NoDup string).
  - intros e w1 _ H1. exact H1.
  - intros l w1 H1 Hl. exact (H1 _ Hl).
  - intros l w1 HP _. apply distinct_save. exact HP.
  - intros l entry HP. apply remove_first_NoDup. exact HP.
  - exact Hw.
Qed.

Lemma uninstall_keeps_dependencies_distinct_witness :
  distinct_manifest
    (snd (uninstall obliging_host ["a"] false
            (mkWorld true (Some ["a==1.0"; "b==1.0"]) []))).
Proof.
  apply (uninstall_keeps_dependencies_distinct obliging_host ["a"] false
           (mkWorld true (Some ["a==1.0"; "b==1.0"]) [])).
  intros deps Heq. simpl in Heq. injection Heq as <-.
  constructor; [simpl; intros [H | []]; discriminate H |].
  constructor; [simpl; tauto | constructor].
Defined.

(** *** One round of the loop of [uninstall] *)

Lemma uninstall_name_unmatched host deps name w :
  not_in_dependencies deps name ->
  uninstall_name host deps name w =
  (Val (None, deps),
   record_event (EvPrint ("Package " ++ name ++ " not found in dependencies")) w).
Proof.
  unfold not_in_dependencies, uninstall_name.
  destruct (PyStr.contains "==" name); intros ->; reflexivity.
Qed.

Lemma uninstall_name_matched host deps name dep version w :
  matches deps name dep version ->
  uninstall_name host deps name w =
  (r <- uninstall_package host name version ;;
   ret (r, PyStr.remove_first dep deps)) (record_event (EvRemove dep) w).
Proof.
  unfold matches, uninstall_name.
  destruct (PyStr.contains "==" name).
  - intros [-> [-> ->]]. reflexivity.
  - intros [-> ->]. reflexivity.
Qed.

(** What [uninstall_package] does, by the answer of the installer and
    by whether the error text of a failure decodes. *)
Lemma uninstall_package_result host name version w :
  exists w',
    uninstall_package host name version w =
      (Val match sp_run host (log w)
                   [env_pip host; "uninstall"; "-y"; name ++ "==" ++ version] with
           | Completed rc _ err =>
               if (rc =? 0)%Z then None
               else match decode host err with
                    | inl _ => Some rc
                    | inr _ => None
                    end
           | NotStarted _ => None
           end, w') /\
    manifest_file w' = manifest_file w /\
    ran w w' [EvRun [env_pip host; "uninstall"; "-y"; name ++ "==" ++ version]
                (sp_run host (log w)
                   [env_pip host; "uninstall"; "-y"; name ++ "==" ++ version])].
Proof.
  unfold uninstall_package, uninstall_caught. cbv [bind run_try].
  destruct (sp_run host (log w) _) as [rc out err | msg].
  - destruct (rc =? 0)%Z; cbn [negb]; [| destruct (decode host err)]; cbn;
      eexists; (split; [reflexivity |]); (split; [reflexivity |]);
      eexists; (split; [read_since | reflexivity]).
  - cbn. eexists. split; [reflexivity |]. split; [reflexivity |].
    eexists. split; [read_since | reflexivity].
Qed.

Lemma quiet_event w0 w e :
  is_run e = false -> is_save e = false -> quiet w0 w -> quiet w0 (record_event e w).
Proof.
  intros Hr Hs [new [Hnew [Hran Hsave]]]. exists (e :: new).
  split; [apply since_event; exact Hnew |].
  rewrite count_cons, Hs. cbn [filter]. rewrite Hr. split; assumption.
Qed.

Lemma uninstall_names_unmatched host deps names :
  Forall (not_in_dependencies deps) names ->
  forall w0 w, quiet w0 w ->
  exists w',
    uninstall_names host deps names w = (Val (None, deps), w') /\
    manifest_file w' = manifest_file w /\
    quiet w0 w'.
Proof.
  induction 1 as [| name rest Hname Hrest IH]; intros w0 w Hw; cbn [uninstall_names].
  - exists w. repeat split. exact Hw.
  - unfold bind. rewrite (uninstall_name_unmatched host deps name w Hname).
    destruct (IH w0 (record_event
                       (EvPrint ("Package " ++ name ++ " not found in dependencies")) w))
      as [w' [Hrun [Hfile Hquiet]]].
    + apply quiet_event; [reflexivity | reflexivity | exact Hw].
    + exists w'. split; [exact Hrun |]. split; [exact Hfile | exact Hquiet].
Qed.

(** The start of [uninstall] in isolated mode, when the environment is
    there and the manifest loads. *)
Lemma uninstall_isolated host names deps w :
  env_exists w = true ->
  manifest_file w = Some deps ->
  uninstall host names false w =
  ('(r, deps') <- uninstall_names host deps names ;;
   match r with
   | Some rc => ret rc
   | None => PyProject.save deps' ;; ret 0%Z
   end) (record_event EvGetDeps (record_event EvLoad w)).
Proof.
  intros Henv Hdeps. unfold uninstall.
  cbv [bind env_path_exists PyProject.load PyProject.dependencies emit ret].
  rewrite Henv. cbn [negb]. cbv beta. rewrite Hdeps. reflexivity.
Qed.

Lemma ran_after_load w w' l :
  ran (record_event EvGetDeps (record_event EvLoad w)) w' l -> ran w w' l.
Proof.
  intros [new [Hnew Hl]]. exists (new ++ [EvGetDeps; EvLoad])%list. split.
  - unfold since in *. rewrite Hnew. cbn. rewrite <- app_assoc. reflexivity.
  - rewrite filter_app, Hl. cbn. apply app_nil_r.
Qed.

(** X11. In isolated mode, when none of the names matches an entry of
    the dependency list (a name with [==] as a whole entry, a bare name by
    the part before [==]), [uninstall] starts no process and returns 0, and
    the last thing it does is save the manifest, once, with the dependency
    list as it was. *)
Theorem uninstall_nothing_matches
    (host : Host) (names deps : list string) (w : World) :
  env_exists w = true ->
  manifest_file w = Some deps ->
  Forall (not_in_dependencies deps) names ->
  fst (uninstall host names false w) = Val 0%Z /\
  manifest_file (snd (uninstall host names false w)) = Some deps /\
  exists new,
    since w (snd (uninstall host names false w)) (EvSave deps :: new) /\
    filter is_run new = [] /\
    count is_save new = 0.
Proof.
  intros Henv Hdeps Hnames.
  rewrite (uninstall_isolated host names deps w Henv Hdeps). unfold bind.
  destruct (uninstall_names_unmatched host deps names Hnames w
              (record_event EvGetDeps (record_event EvLoad w)))
    as [w' [-> [Hfile [new [Hnew [Hran Hsave]]]]]].
  { repeat (apply quiet_event; [reflexivity | reflexivity |]).
    exists []. repeat split. }
  cbn. split; [reflexivity |]. split; [reflexivity |].
  exists new. split; [| split; assumption].
  unfold since in *. cbn. rewrite Hnew. reflexivity.
Qed.

Lemma uninstall_nothing_matches_witness :
  fst (uninstall dead_host ["flask"; "requests==2.25.0"] false requests_project)
    = Val 0%Z /\
  manifest_file
    (snd (uninstall dead_host ["flask"; "requests==2.25.0"] false requests_project))
    = Some ["requests==2.26.0"].
Proof.
  destruct (uninstall_nothing_matches dead_host ["flask"; "requests==2.25.0"]
              ["requests==2.26.0"] requests_project eq_refl eq_refl)
    as [Hr [Hfile _]].
  - repeat constructor.
  - split; [exact Hr | exact Hfile].
Defined.

Lemma uninstall_names_matched host deps name rest dep version w :
  matches deps name dep version ->
  uninstall_names host deps (name :: rest) w =
  match uninstall_package host name version (record_event (EvRemove dep) w) with
  | (Val (Some rc), w') => (Val (Some rc, PyStr.remove_first dep deps), w')
  | (Val None, w') => uninstall_names host (PyStr.remove_first dep deps) rest w'
  | (Raise e, w') => (Raise e, w')
  | (OutOfFuel, w') => (OutOfFuel, w')
  end.
Proof.
  intros Hmatch. cbn [uninstall_names]. unfold bind at 1.
  rewrite (uninstall_name_matched host deps name dep version w Hmatch).
  unfold bind.
  destruct (uninstall_package host name version _) as [[[rc |] | e |] w'];
    reflexivity.
Qed.

Lemma ran_after_remove w w' dep l :
  ran (record_event (EvRemove dep) w) w' l -> ran w w' l.
Proof.
  intros [new [Hnew Hl]]. exists (new ++ [EvRemove dep])%list. split.
  - unfold since in *. rewrite Hnew. cbn. rewrite <- app_assoc. reflexivity.
  - rewrite filter_app, Hl. cbn. apply app_nil_r.
Qed.

(** X12. In isolated mode, let the installer's [uninstall] exit with a
    code other than 0 for the first name.  If its error text decodes,
    [uninstall] prints it and returns that code at once: the names after it
    are not looked at, no other process is started, and the manifest file
    is not written, so the entry it had already taken out of the list in
    memory is still in the file.  If the error text does not decode, the
    decoding error is caught like any other: for a request of that one name
    [uninstall] returns 0 and saves the dependency list without the
    entry. *)
Theorem uninstall_failure_keeps_manifest
    (host : Host) (deps : list string) (name dep version : string)
    (rest : list string) (w : World) (rc : Z) (out err : string) :
  env_exists w = true ->
  manifest_file w = Some deps ->
  matches deps name dep version ->
  rc <> 0%Z ->
  (forall h, sp_run host h [env_pip host; "uninstall"; "-y"; name ++ "==" ++ version]
             = Completed rc out err) ->
  (forall text, decode host err = inl text ->
   fst (uninstall host (name :: rest) false w) = Val rc /\
   manifest_file (snd (uninstall host (name :: rest) false w)) = Some deps /\
   ran w (snd (uninstall host (name :: rest) false w))
     [EvRun [env_pip host; "uninstall"; "-y"; name ++ "==" ++ version]
        (Completed rc out err)]) /\
  (forall msg, decode host err = inr msg ->
   fst (uninstall host [name] false w) = Val 0%Z /\
   manifest_file (snd (uninstall host [name] false w))
     = Some (PyStr.remove_first dep deps)).
Proof.
  intros Henv Hdeps Hmatch Hrc Hrun. apply Z.eqb_neq in Hrc.
  split.
  - intros text Htext.
    rewrite (uninstall_isolated host _ deps w Henv Hdeps). unfold bind.
    rewrite (uninstall_names_matched host deps name rest dep version _ Hmatch).
    destruct (uninstall_package_result host name version
                (record_event (EvRemove dep)
                   (record_event EvGetDeps (record_event EvLoad w))))
      as [w' [Hpkg [Hfile Hran]]].
    rewrite Hrun, Hrc, Htext in Hpkg. rewrite Hrun in Hran. rewrite Hpkg. cbn.
    split; [reflexivity |]. split; [rewrite Hfile; exact Hdeps |].
    apply ran_after_load, (ran_after_remove _ _ dep). exact Hran.
  - intros msg Hmsg.
    rewrite (uninstall_isolated host _ deps w Henv Hdeps). unfold bind.
    rewrite (uninstall_names_matched host deps name [] dep version _ Hmatch).
    destruct (uninstall_package_result host name version
                (record_event (EvRemove dep)
                   (record_event EvGetDeps (record_event EvLoad w))))
      as [w' [Hpkg [Hfile Hran]]].
    rewrite Hrun, Hrc, Hmsg in Hpkg. rewrite Hpkg. cbn. split; reflexivity.
Qed.

Lemma uninstall_failure_keeps_manifest_witness :
  (fst (uninstall broken_host ["requests"; "flask"] false requests_project) = Val 1%Z /\
   manifest_file (snd (uninstall broken_host ["requests"; "flask"] false requests_project))
     = Some ["requests==2.26.0"]) /\
  (fst (uninstall garbled_host ["requests"] false requests_project) = Val 0%Z /\
   manifest_file (snd (uninstall garbled_host ["requests"] false requests_project))
     = Some []).
Proof.
  split.
  - destruct (uninstall_failure_keeps_manifest broken_host ["requests==2.26.0"]
                "requests" "requests==2.26.0" "2.26.0" ["flask"] requests_project
                1 "" "ERROR: cannot uninstall" eq_refl eq_refl)
      as [Hdecoded _].
    + split; reflexivity.
    + discriminate.
    + intros h. reflexivity.
    + destruct (Hdecoded _ eq_refl) as [Hr [Hfile _]].
      split; [exact Hr | exact Hfile].
  - destruct (uninstall_failure_keeps_manifest garbled_host ["requests==2.26.0"]
                "requests" "requests==2.26.0" "2.26.0" [] requests_project
                1 "" (String (ascii_of_nat 233) "") eq_refl eq_refl)
      as [_ Hcaught].
    + split; reflexivity.
    + discriminate.
    + intros h. reflexivity.
    + exact (Hcaught _ eq_refl).
Defined.

(** X13. In isolated mode, [uninstall] of one name that matches an
    entry takes the first occurrence of that entry out of the dependency
    list, saves the manifest and returns 0 when the installer's
    [uninstall] exits with code 0, and just the same when the installer
    cannot be started at all: the error is caught and printed, and the
    entry is gone from the manifest although nothing was uninstalled. *)
Theorem uninstall_removes_entry
    (host : Host) (deps : list string) (name dep version : string)
    (w : World) (res : proc_result) :
  env_exists w = true ->
  manifest_file w = Some deps ->
  matches deps name dep version ->
  (forall h, sp_run host h [env_pip host; "uninstall"; "-y"; name ++ "==" ++ version]
             = res) ->
  match res with
  | Completed rc _ _ => rc = 0%Z
  | NotStarted _ => True
  end ->
  fst (uninstall host [name] false w) = Val 0%Z /\
  manifest_file (snd (uninstall host [name] false w))
    = Some (PyStr.remove_first dep deps).
Proof.
  intros Henv Hdeps Hmatch Hrun Hres.
  rewrite (uninstall_isolated host _ deps w Henv Hdeps). unfold bind.
  rewrite (uninstall_names_matched host deps name [] dep version _ Hmatch).
  destruct (uninstall_package_result host name version
              (record_event (EvRemove dep)
                 (record_event EvGetDeps (record_event EvLoad w))))
    as [w' [Hpkg [Hfile Hran]]].
  rewrite Hrun in Hpkg. rewrite Hpkg.
  destruct res as [rc out err | msg]; [subst rc |]; cbn; split; reflexivity.
Qed.

Lemma uninstall_removes_entry_witness :
  fst (uninstall dead_host ["requests"] false requests_project) = Val 0%Z /\
  manifest_file (snd (uninstall dead_host ["requests"] false requests_project))
    = Some [].
Proof.
  refine (uninstall_removes_entry dead_host ["requests==2.26.0"]
            "requests" "requests==2.26.0" "2.26.0" requests_project
            (NotStarted "[Errno 2] No such file or directory")
            eq_refl eq_refl _ _ I).
  - split; reflexivity.
  - intros h. reflexivity.
Defined.

(** *** An entry without a version *)

Lemma append_empty_r (s : string) : s ++ "" = s.
Proof. induction s as [| c s IH]; simpl; [| rewrite IH]; reflexivity. Qed.

Lemma append_char_assoc (cur : string) c s :
  (cur ++ String c "") ++ s = cur ++ String c s.
Proof. induction cur as [| d cur IH]; simpl; [| rewrite IH]; reflexivity. Qed.

Lemma split_go_without sep s :
  forall cur, PyStr.contains sep s = false ->
  PyStr.split_go sep 0 cur s = [cur ++ s].
Proof.
  induction s as [| c s IH]; intros cur Hno; cbn [PyStr.split_go].
  - rewrite append_empty_r. reflexivity.
  - cbn [PyStr.contains] in Hno. apply orb_false_iff in Hno as [Hhere Hlater].
    rewrite Hhere, (IH _ Hlater), append_char_assoc. reflexivity.
Qed.

(** [s.split(sep)] is the one-element list [[s]] when [sep] does not
    occur in [s]. *)
Lemma split_without sep s :
  PyStr.contains sep s = false -> PyStr.split sep s = [s].
Proof. intros Hno. unfold PyStr.split. rewrite split_go_without by exact Hno. reflexivity. Qed.

(** X14. In isolated mode, when the first entry found for a bare name
    has no [==] in it (the manifest lists the package without a version),
    [uninstall] raises [IndexError] at that name: no process has been
    started, the names after it are not looked at and the manifest file is
    not written. *)
Theorem uninstall_unversioned_entry
    (host : Host) (deps : list string) (name dep : string) (rest : list string)
    (w : World) :
  env_exists w = true ->
  manifest_file w = Some deps ->
  PyStr.contains "==" name = false ->
  find_dep name deps = Some dep ->
  PyStr.contains "==" dep = false ->
  fst (uninstall host (name :: rest) false w) = Raise IndexError /\
  manifest_file (snd (uninstall host (name :: rest) false w)) = Some deps /\
  ran w (snd (uninstall host (name :: rest) false w)) [].
Proof.
  intros Henv Hdeps Hname Hfind Hdep.
  rewrite (uninstall_isolated host _ deps w Henv Hdeps).
  cbn [uninstall_names]. unfold bind, uninstall_name.
  rewrite Hname, Hfind, (split_without _ _ Hdep). cbn.
  split; [reflexivity |]. split; [exact Hdeps |].
  apply ran_after_load, ran_refl.
Qed.

Lemma uninstall_unversioned_entry_witness :
  fst (uninstall obliging_host ["requests"] false (mkWorld true (Some ["requests"]) []))
    = Raise IndexError.
Proof.
  exact (proj1 (uninstall_unversioned_entry obliging_host ["requests"] "requests"
                  "requests" [] (mkWorld true (Some ["requests"]) [])
                  eq_refl eq_refl eq_refl eq_refl eq_refl)).
Defined.

(** ** The value of [install] *)

(** X15. [install] has no way to report a failure through its value:
    whenever it returns, in either mode and whatever the installer
    answered to the [install] subcommands, it returns 0; anything else
    shows as an exception. *)
Theorem install_value_is_zero
    (host : Host) (fuel : nat) (names : list string) (_global : bool) (w : World)
    (code : Z) :
  fst (install host fuel names _global w) = Val code -> code = 0%Z.
Proof. apply install_returns_zero. Qed.

Lemma install_value_is_zero_witness :
  fst (install picky_host 1 ["a"] true fresh_project) = Val 0%Z.
Proof.
  destruct (fst (install picky_host 1 ["a"] true fresh_project)) as [code | e |] eqn:Hr.
  - rewrite (install_value_is_zero picky_host 1 ["a"] true fresh_project code Hr).
    reflexivity.
  - vm_compute in Hr. discriminate Hr.
  - vm_compute in Hr. discriminate Hr.
Defined.

(** ** Everything is installed already *)

Lemma install_names_skip host _global installed deps entry rest w :
  In entry installed ->
  install_names host _global installed deps (entry :: rest) w =
  install_names host _global installed deps rest
    (record_event (EvPrint ("Package " ++ entry ++ " is already installed")) w).
Proof.
  intros Hin. apply mem_In in Hin. cbn [install_names]. rewrite Hin. reflexivity.
Qed.

Lemma install_deps_skip host _global installed deps entry fuel i w :
  In entry installed ->
  nth_error deps i = Some entry ->
  install_deps host (S fuel) _global installed i deps w =
  install_deps host fuel _global installed (S i) deps
    (record_event (EvPrint ("Dependency " ++ entry ++ " is already installed")) w).
Proof.
  intros Hin Hnth. apply mem_In in Hin. cbn [install_deps].
  rewrite Hnth, Hin. reflexivity.
Qed.

Lemma idle_refl w : idle w w.
Proof. exists []. repeat split. Qed.

Lemma idle_event w0 w e :
  is_install e = false -> is_save e = false ->
  idle w0 w -> idle w0 (record_event e w).
Proof.
  intros Hi Hs [new [Hnew [Hci Hcs]]]. exists (e :: new).
  split; [apply since_event; exact Hnew |].
  rewrite !count_cons, Hi, Hs. split; assumption.
Qed.

Lemma idle_world w0 w e b file :
  is_install e = false -> is_save e = false ->
  idle w0 w -> idle w0 (mkWorld b file (e :: log w)).
Proof.
  intros Hi Hs [new [Hnew [Hci Hcs]]]. exists (e :: new). split.
  - unfold since in *. cbn. rewrite Hnew. reflexivity.
  - rewrite !count_cons, Hi, Hs. split; assumption.
Qed.

Lemma idle_createVenv w0 w path :
  idle w0 w -> idle w0 (mkWorld true (manifest_file w) (EvCreateVenv path :: log w)).
Proof.
  intros [new [Hnew [Hci Hcs]]]. exists (EvCreateVenv path :: new). split.
  - unfold since in *. cbn. rewrite Hnew. reflexivity.
  - rewrite !count_cons. split; assumption.
Qed.

Lemma install_names_present host _global installed deps names :
  Forall (fun entry => In entry installed) names ->
  forall w0 w, idle w0 w ->
  exists w',
    install_names host _global installed deps names w = (Val deps, w') /\
    manifest_file w' = manifest_file w /\
    env_exists w' = env_exists w /\
    idle w0 w'.
Proof.
  induction 1 as [| entry rest Hentry Hrest IH]; intros w0 w Hw.
  - exists w. repeat split. exact Hw.
  - rewrite (install_names_skip host _global installed deps entry rest w Hentry).
    destruct (IH w0 (record_event
                       (EvPrint ("Package " ++ entry ++ " is already installed")) w))
      as [w' [Hrun [Hfile [Henv Hidle]]]].
    + apply idle_event; [reflexivity | reflexivity | exact Hw].
    + exists w'. repeat split; assumption.
Qed.

Lemma install_deps_present host _global installed deps :
  Forall (fun entry => In entry installed) deps ->
  forall fuel i w0 w,
  List.length deps - i <= fuel ->
  idle w0 w ->
  exists w',
    install_deps host fuel _global installed i deps w = (Val deps, w') /\
    manifest_file w' = manifest_file w /\
    env_exists w' = env_exists w /\
    idle w0 w'.
Proof.
  intros Hall. induction fuel as [| fuel IH]; intros i w0 w Hfuel Hw.
  - assert (Hend : nth_error deps i = None) by (apply nth_error_None; lia).
    rewrite (install_deps_end _ _ _ _ _ _ Hend).
    exists w. repeat split. exact Hw.
  - destruct (nth_error deps i) as [entry |] eqn:Hnth.
    + assert (Hin : In entry installed).
      { rewrite Forall_forall in Hall. apply Hall.
        eapply nth_error_In. exact Hnth. }
      rewrite (install_deps_skip host _global installed deps entry fuel i w Hin Hnth).
      destruct (IH (S i) w0
                  (record_event
                     (EvPrint ("Dependency " ++ entry ++ " is already installed")) w))
        as [w' [Hrun [Hfile [Henv Hidle]]]].
      * lia.
      * apply idle_event; [reflexivity | reflexivity | exact Hw].
      * exists w'. repeat split; assumption.
    + rewrite (install_deps_end _ _ _ _ _ _ Hnth).
      exists w. repeat split. exact Hw.
Qed.

(** X16. When every entry of the work list (the requested names, or the
    dependency list of the manifest for an empty request) is a line of the
    [freeze] output and [check] reports nothing, [install] returns 0
    without running a single [install] subcommand and without saving the
    manifest, whose content stays as it was.  The fuel only has to cover
    one round of the loop per entry of the dependency list. *)
Theorem install_all_present
    (host : Host) (fuel : nat) (names : list string) (_global : bool) (w : World)
    (deps : list string) (fout ferr cout cerr : string) :
  manifest_file w = Some deps ->
  (forall h, sp_run host h
               [if _global then GLOBAL_PIP_EXECUTABLE host else env_pip host; "freeze"]
             = Completed 0 fout ferr) ->
  (forall h, sp_run host h [env_pip host; "check"] = Completed 0 cout cerr) ->
  PyStr.findall_requires cout = [] ->
  Forall (fun entry => In entry (PyStr.split PyStr.LF fout))
    (match names with [] => deps | _ :: _ => names end) ->
  List.length deps <= fuel ->
  fst (install host (S fuel) names _global w) = Val 0%Z /\
  manifest_file (snd (install host (S fuel) names _global w)) = Some deps /\
  idle w (snd (install host (S fuel) names _global w)).
Proof.
  intros Hdeps Hfreeze Hcheck Hnone Hall Hfuel.
  unfold install, install_pass, getInstalledPackages, getMissingDependencies,
    run, run_try, bind, PyProject.load, PyProject.dependencies, emit, print,
    env_path_exists.
  rewrite Hdeps. cbn -[install_names install_deps].
  assert (Hend : forall r w2,
            manifest_file w2 = Some deps -> idle w w2 ->
            r = (Val 0%Z, record_event
                            (EvRun [env_pip host; "check"] (Completed 0 cout cerr)) w2) ->
            fst r = Val 0%Z /\ manifest_file (snd r) = Some deps /\ idle w (snd r)).
  { intros r w2 Hfile Hidle ->. cbn [fst snd]. split; [reflexivity |].
    split; [exact Hfile |].
    apply idle_event; [reflexivity | reflexivity | exact Hidle]. }
  destruct (env_exists w) eqn:Henv; cbn -[install_names install_deps];
    rewrite Hfreeze; cbn -[install_names install_deps];
    destruct names as [| name rest].
  - match goal with
    | |- context [install_deps ?h ?f ?g ?inst 0 ?d ?w1] =>
        assert (Hpre : idle w w1)
          by (eexists; split; [read_since | split; reflexivity]);
        destruct (install_deps_present h g inst d Hall f 0 w w1 ltac:(lia) Hpre)
          as [w2 [Hrun [Hfile [_ Hidle]]]]
    end.
    rewrite Hrun. cbn. rewrite Hcheck. cbn. rewrite Hnone.
    apply (Hend _ w2); [rewrite Hfile; exact Hdeps | exact Hidle | reflexivity].
  - match goal with
    | |- context [install_names ?h ?g ?inst ?d ?l ?w1] =>
        assert (Hpre : idle w w1)
          by (eexists; split; [read_since | split; reflexivity]);
        destruct (install_names_present h g inst d l Hall w w1 Hpre)
          as [w2 [Hrun [Hfile [_ Hidle]]]]
    end.
    rewrite Hrun. cbn. rewrite Hcheck. cbn. rewrite Hnone.
    apply (Hend _ w2); [rewrite Hfile; exact Hdeps | exact Hidle | reflexivity].
  - match goal with
    | |- context [install_deps ?h ?f ?g ?inst 0 ?d ?w1] =>
        assert (Hpre : idle w w1)
          by (eexists; split; [read_since | split; reflexivity]);
        destruct (install_deps_present h g inst d Hall f 0 w w1 ltac:(lia) Hpre)
          as [w2 [Hrun [Hfile [_ Hidle]]]]
    end.
    rewrite Hrun. cbn. rewrite Hcheck. cbn. rewrite Hnone.
    apply (Hend _ w2); [rewrite Hfile; exact Hdeps | exact Hidle | reflexivity].
  - match goal with
    | |- context [install_names ?h ?g ?inst ?d ?l ?w1] =>
        assert (Hpre : idle w w1)
          by (eexists; split; [read_since | split; reflexivity]);
        destruct (install_names_present h g inst d l Hall w w1 Hpre)
          as [w2 [Hrun [Hfile [_ Hidle]]]]
    end.
    rewrite Hrun. cbn. rewrite Hcheck. cbn. rewrite Hnone.
    apply (Hend _ w2); [rewrite Hfile; exact Hdeps | exact Hidle | reflexivity].
Qed.

Lemma install_all_present_witness :
  fst (install requests_host 2 [] false requests_project) = Val 0%Z /\
  manifest_file (snd (install requests_host 2 [] false requests_project))
    = Some ["requests==2.26.0"].
Proof.
  destruct (install_all_present requests_host 1 [] false requests_project
              ["requests==2.26.0"] ("requests==2.26.0" ++ PyStr.LF) ""
              "No broken requirements found." "" eq_refl)
    as [Hr [Hfile _]].
  - intros h. reflexivity.
  - intros h. reflexivity.
  - reflexivity.
  - constructor; [left; reflexivity | constructor].
  - simpl. lia.
  - split; [exact Hr | exact Hfile].
Defined.

(** ** A clean [check] report *)

Lemma findall_go_without s :
  PyStr.contains "requires " s = false -> PyStr.findall_go 0 s = [].
Proof.
  induction s as [| c s IH]; intros Hno; [reflexivity |].
  cbn [PyStr.contains] in Hno. apply orb_false_iff in Hno as [Hhere Hlater].
  cbn [PyStr.findall_go]. rewrite Hhere. apply IH. exact Hlater.
Qed.

(** X17. A [check] that exits with code 0 and whose output nowhere has
    the word [requires] followed by a space reports no missing dependency,
    whatever else it prints. *)
Theorem check_without_requires
    (host : Host) (w : World) (out err : string) :
  sp_run host (log w) [env_pip host; "check"] = Completed 0 out err ->
  PyStr.contains "requires " out = false ->
  fst (getMissingDependencies host w) = Val [].
Proof.
  intros Hrun Hno. unfold getMissingDependencies, run, run_try. cbv [bind ret].
  rewrite Hrun. cbn [Z.eqb negb fst].
  unfold PyStr.findall_requires. rewrite (findall_go_without _ Hno). reflexivity.
Qed.

Lemma check_without_requires_witness :
  fst (getMissingDependencies obliging_host fresh_project) = Val [].
Proof.
  exact (check_without_requires obliging_host fresh_project
           "No broken requirements found." "" eq_refl eq_refl).
Defined.

(** ** [run], [cli] and [list] *)

(** X18. [run] and [cli] never load, read, change or save the manifest.
    All [cli] does is start one process, the interpreter: it never creates
    the environment.  [run] checks the script first: when it does not
    exist, [run] returns 1 after one message, with no environment created
    and no process started; when it exists, [run] creates the environment
    if there is none and then starts one process, the environment's
    interpreter on the script and its arguments, so that the environment
    exists once [run] has ended, whatever the script did. *)
Theorem run_and_cli_frame
    (host : Host) (script_exists : string -> bool) (script : string)
    (args : list string) (_global : bool) (w : World) :
  manifest_file (snd (Command.run host script_exists script args w)) = manifest_file w /\
  manifest_file (snd (Command.cli host _global w)) = manifest_file w /\
  env_exists (snd (Command.cli host _global w)) = env_exists w /\
  (script_exists script = false ->
   Command.run host script_exists script args w =
     (Val 1%Z, record_event (EvPrint ("Script " ++ script ++ " not found")) w)) /\
  (script_exists script = true ->
   env_exists (snd (Command.run host script_exists script args w)) = true) /\
  hands_off w (snd (Command.run host script_exists script args w)) /\
  hands_off w (snd (Command.cli host _global w)) /\
  (exists res,
     since w (snd (Command.cli host _global w))
       [EvRun [if _global then GLOBAL_PYTHON_EXECUTABLE host
               else Command.env_python host] res]) /\
  (script_exists script = true ->
   exists res,
     since w (snd (Command.run host script_exists script args w))
       (EvRun (Command.env_python host :: script :: args) res ::
        (if env_exists w then [] else [EvCreateVenv envPath]))).
Proof.
  unfold Command.run, Command.cli, Command.run_uncaptured, Command.run_inherit,
    run, run_try.
  cbv [bind ret raise print emit env_path_exists createVenv].
  repeat match goal with |- _ /\ _ => split end.
  - destruct (script_exists script); cbn [negb]; [| reflexivity].
    destruct (env_exists w); cbn [negb];
      match goal with
      | |- context [sp_run ?h ?l ?c] => destruct (sp_run h l c)
      end; reflexivity.
  - destruct _global;
      match goal with
      | |- context [sp_run ?h ?l ?c] => destruct (sp_run h l c)
      end; reflexivity.
  - destruct _global;
      match goal with
      | |- context [sp_run ?h ?l ?c] => destruct (sp_run h l c)
      end; reflexivity.
  - intros ->. reflexivity.
  - intros ->. cbn [negb]. destruct (env_exists w) eqn:Henv; cbn [negb];
      match goal with
      | |- context [sp_run ?h ?l ?c] => destruct (sp_run h l c)
      end; cbn; auto.
  - destruct (script_exists script); cbn [negb].
    + destruct (env_exists w); cbn [negb];
        match goal with
        | |- context [sp_run ?h ?l ?c] => destruct (sp_run h l c)
        end; eexists; (split; [read_since | reflexivity]).
    + eexists. split; [read_since | reflexivity].
  - destruct _global;
      match goal with
      | |- context [sp_run ?h ?l ?c] => destruct (sp_run h l c)
      end; eexists; (split; [read_since | reflexivity]).
  - destruct _global;
      match goal with
      | |- context [sp_run ?h ?l ?c] => destruct (sp_run h l c)
      end; eexists; reflexivity.
  - intros ->. cbn [negb app]. destruct (env_exists w); cbn [negb];
      match goal with
      | |- context [sp_run ?h ?l ?c] => destruct (sp_run h l c)
      end; eexists; reflexivity.
Qed.

Lemma run_and_cli_frame_witness :
  Command.run dead_host (fun _ => false) "main.py" ["--fast"]
    (mkWorld false (Some []) []) =
  (Val 1%Z, record_event (EvPrint "Script main.py not found")
              (mkWorld false (Some []) [])) /\
  exists res,
    log (snd (Command.run obliging_host (fun _ => true) "main.py" ["--fast"]
                (mkWorld false (Some []) [])))
      = [EvRun [".ppm.env/bin/python"; "main.py"; "--fast"] res;
         EvCreateVenv ".ppm.env"].
Proof.
  split.
  - destruct (run_and_cli_frame dead_host (fun _ => false) "main.py" ["--fast"] false
                (mkWorld false (Some []) [])) as [_ [_ [_ [Hmissing _]]]].
    exact (Hmissing eq_refl).
  - destruct (run_and_cli_frame obliging_host (fun _ => true) "main.py" ["--fast"] false
                (mkWorld false (Some []) [])) as [_ [_ [_ [_ [_ [_ [_ [_ Hrun]]]]]]]].
    destruct (Hrun eq_refl) as [res Hsince]. exists res. exact Hsince.
Defined.

(** X19. [list] never hands back the exit code of a listing that
    failed.  When the listing command exits with code 0, [list] returns 0.
    When it exits with any other code, [list] raises an [AttributeError]
    where it wants to print the error text, which was not captured: no
    message is printed and the code is not returned.  So whenever [list]
    returns, it returns 0.  The manifest and the environment are left
    alone. *)
Theorem list_loses_exit_code
    (host : Host) (_global deprecated : bool) (w : World) :
  (forall code, fst (Command.list host _global deprecated w) = Val code ->
                code = 0%Z) /\
  (forall rc out err,
     sp_run host (log w)
       [(if _global then GLOBAL_PIP_EXECUTABLE host else env_pip host) ++ " " ++
        "list" ++ (if deprecated then " --outdated" else "")]
     = Completed rc out err ->
     Command.list host _global deprecated w =
       (if (rc =? 0)%Z then Val 0%Z else Raise AttributeError,
        record_event
          (EvRun [(if _global then GLOBAL_PIP_EXECUTABLE host else env_pip host)
                  ++ " " ++ "list" ++ (if deprecated then " --outdated" else "")]
             (Completed rc out err)) w)) /\
  manifest_file (snd (Command.list host _global deprecated w)) = manifest_file w /\
  env_exists (snd (Command.list host _global deprecated w)) = env_exists w.
Proof.
  unfold Command.list, Command.run_inherit, Command.stream_decode, run, run_try.
  cbv zeta. cbv [bind ret raise].
  destruct (sp_run host (log w) _) as [rc out err | msg].
  - cbn [Command.returncode Command.stderr].
    destruct (rc =? 0)%Z eqn:Hrc; cbn [negb]; repeat split.
    + intros code [= <-]. reflexivity.
    + intros rc' out' err' [= <- <- <-]. rewrite Hrc. reflexivity.
    + intros code [=].
    + intros rc' out' err' [= <- <- <-]. rewrite Hrc. reflexivity.
  - repeat split.
    + intros code [=].
    + intros rc' out' err' [=].
Qed.

Lemma list_loses_exit_code_witness :
  fst (Command.list failing_host false true fresh_project) = Raise AttributeError.
Proof.
  destruct (list_loses_exit_code failing_host false true fresh_project)
    as [_ [Hfails _]].
  rewrite (Hfails 1%Z "" "ERROR" eq_refl). reflexivity.
Defined.
